(** * Manufacturing asset management (app.py): model and verified properties

    The application is a Streamlit script over an SQLAlchemy session bound to
    an SQLite file.  The model below follows app.py function by function.

    - A table is the list of its rows in rowid order; a row is its primary
      key paired with the other columns of the mapped class.
    - A page function takes the values its widgets return in one script run
      and the world it runs in, and gives the world it leaves together with
      the Streamlit calls it made, in order.
    - [Float] columns and Python floats are exact rationals ([Q]): sums and
      quotients are the arithmetic ones, IEEE rounding is not represented.
    - A [datetime] is a count of microseconds. *)

From Stdlib Require Import ZArith QArith List String Ascii Bool Lia.
From Stdlib Require Import Permutation Sorted.
Import ListNotations.

Local Open Scope string_scope.
Local Open Scope list_scope.
Local Open Scope Z_scope.

(** ** Python strings *)

(** [str.isspace] on the code points below 256. *)
Definition is_space (c : ascii) : bool :=
  let n := N_of_ascii c in
  ((9 <=? n)%N && (n <=? 13)%N) || ((28 <=? n)%N && (n <=? 32)%N)
  || (n =? 133)%N || (n =? 160)%N.

Fixpoint lstrip (s : string) : string :=
  match s with
  | EmptyString => EmptyString
  | String c s' => if is_space c then lstrip s' else s
  end.

Fixpoint rstrip (s : string) : string :=
  match s with
  | EmptyString => EmptyString
  | String c s' =>
      match rstrip s' with
      | EmptyString => if is_space c then EmptyString else String c EmptyString
      | r => String c r
      end
  end.

(** [s.strip()] *)
Definition strip (s : string) : string := rstrip (lstrip s).

(** ** Database models *)

Definition datetime := Z.

Record Product := {
  p_name : string;
  p_price : Q;
  p_quantity : Z
}.

Record Machine := {
  m_name : string;
  m_status : string;
  m_last_maintenance : option datetime
}.

Record Production := {
  machine_id : Z;
  start_time : datetime;
  end_time : option datetime;
  run_time : Q;
  production_quantity : Z
}.

(** ** The record store *)

Module Table.

Definition t (A : Type) : Type := list (Z * A).

Definition ids {A} (tb : t A) : list Z := map fst tb.

(** The key SQLite gives to the next row of an INTEGER PRIMARY KEY
    table: one more than the largest key in use, 1 in an empty table. *)
Definition next_id {A} (tb : t A) : Z :=
  match ids tb with
  | [] => 1
  | i :: l => 1 + fold_right Z.max i l
  end.

(** [session.add(row); session.commit()] *)
Definition insert {A} (tb : t A) (a : A) : t A := tb ++ [(next_id tb, a)].

(** [session.query(M).get(i)] *)
Definition get {A} (tb : t A) (i : Z) : option (Z * A) :=
  find (fun r => fst r =? i) tb.

(** [session.query(M).all()] *)
Definition all {A} (tb : t A) : list (Z * A) := tb.

(** [session.query(M).filter(p).all()] *)
Definition filter {A} (p : Z * A -> bool) (tb : t A) : list (Z * A) :=
  List.filter p tb.

(** Attribute assignment on the loaded row [i] followed by a commit. *)
Definition update {A} (tb : t A) (i : Z) (f : A -> A) : t A :=
  map (fun r => if fst r =? i then (fst r, f (snd r)) else r) tb.

End Table.

Record Store := {
  products : Table.t Product;
  machines : Table.t Machine;
  productions : Table.t Production
}.

Definition empty_store : Store :=
  {| products := []; machines := []; productions := [] |}.

Definition add_product (db : Store) (p : Product) : Store :=
  {| products := Table.insert (products db) p;
     machines := machines db;
     productions := productions db |}.

Definition add_machine (db : Store) (m : Machine) : Store :=
  {| products := products db;
     machines := Table.insert (machines db) m;
     productions := productions db |}.

Definition add_production (db : Store) (p : Production) : Store :=
  {| products := products db;
     machines := machines db;
     productions := Table.insert (productions db) p |}.

Definition with_status (s : string) (m : Machine) : Machine :=
  {| m_name := m_name m; m_status := s;
     m_last_maintenance := m_last_maintenance m |}.

(** [machine.status = s; session.commit()] for the machine with key [i]. *)
Definition set_machine_status (db : Store) (i : Z) (s : string) : Store :=
  {| products := products db;
     machines := Table.update (machines db) i (with_status s);
     productions := productions db |}.

(** ** The script's world: the database and [st.session_state] *)

(** [running_machine] is [None] while the attribute is absent from
    [st.session_state], [Some None] once it holds Python's [None] and
    [Some (Some i)] when it holds the machine id [i]. *)
Record World := {
  db : Store;
  running_machine : option (option Z)
}.

Definition initial_world : World :=
  {| db := empty_store; running_machine := None |}.

(** ** What a page shows *)

Inductive success_msg :=
| AddedMachine (name : string)
| AddedProduct (name : string) (price : Q)
| MonitoringStopped (name : string) (total : Z).

Record ProductionFrame := {
  col_production_id : list Z;
  col_machine_id : list Z;
  col_start_time : list string;
  col_end_time : list string;
  col_run_time : list Q;
  col_production_quantity : list Z
}.

Record ReportRow := {
  rep_machine_name : string;
  rep_total_run_time : Q;
  rep_total_production_quantity : Z
}.

Inductive ui :=
| st_title (s : string)
| st_write (s : string)
| st_error (s : string)
| st_warning (s : string)
| st_success (m : success_msg)
| st_balloons
| st_dataframe_production (f : ProductionFrame)
| st_dataframe_report (rows : list ReportRow).

(** ** Pages *)

Definition home_page (w : World) : World * list ui :=
  (w, [st_title "Manufacturing Asset Management";
       st_write "Welcome to the Manufacturing Asset Management System!"]).

(** The options of the status select box. *)
Inductive status_choice := Running | Idle | Maintenance.

Definition status_options : list string := ["Running"; "Idle"; "Maintenance"].

Definition selectbox (c : status_choice) : string :=
  match c with
  | Running => "Running"
  | Idle => "Idle"
  | Maintenance => "Maintenance"
  end.

(** [add_machine_page]: [now] is what [datetime.now] returns when the
    column default of [last_maintenance] is evaluated. *)
Definition add_machine_page (machine_name : string) (choice : status_choice)
    (submitted : bool) (now : datetime) (w : World) : World * list ui :=
  let machine_status := selectbox choice in
  if submitted then
    if (strip machine_name =? "")%string then
      (w, [st_title "Add New Machine"; st_error "Machine name cannot be empty!"])
    else
      let new_machine :=
        {| m_name := machine_name; m_status := machine_status;
           m_last_maintenance := Some now |} in
      ({| db := add_machine (db w) new_machine;
          running_machine := running_machine w |},
       [st_title "Add New Machine"; st_success (AddedMachine machine_name);
        st_balloons])
  else (w, [st_title "Add New Machine"]).

Definition add_product_page (product_name : string) (quantity : Z)
    (submitted : bool) (w : World) : World * list ui :=
  let product_price := 0%Q in
  if submitted then
    if (strip product_name =? "")%string then
      (w, [st_title "Add New Product"; st_error "Product name cannot be empty!"])
    else if quantity <=? 0 then
      (w, [st_title "Add New Product";
           st_error "Quantity must be greater than 0!"])
    else
      let new_product :=
        {| p_name := product_name; p_price := product_price;
           p_quantity := quantity |} in
      ({| db := add_product (db w) new_product;
          running_machine := running_machine w |},
       [st_title "Add New Product";
        st_success (AddedProduct product_name product_price); st_balloons])
  else (w, [st_title "Add New Product"]).

Section Rendering.

(** [d.strftime("%Y-%m-%d %H:%M:%S")], a library function. *)
Variable strftime : datetime -> string.

Definition end_time_cell (p : Production) : string :=
  match end_time p with
  | Some e => strftime e
  | None => "Running"
  end.

Definition production_frame (rows : list (Z * Production)) : ProductionFrame :=
  {| col_production_id := map fst rows;
     col_machine_id := map (fun r => machine_id (snd r)) rows;
     col_start_time := map (fun r => strftime (start_time (snd r))) rows;
     col_end_time := map (fun r => end_time_cell (snd r)) rows;
     col_run_time := map (fun r => run_time (snd r)) rows;
     col_production_quantity :=
       map (fun r => production_quantity (snd r)) rows |}.

Definition production_data_page (w : World) : World * list ui :=
  let prods := Table.all (productions (db w)) in
  match prods with
  | [] => (w, [st_title "Production Data";
               st_write "No production data available."])
  | _ :: _ => (w, [st_title "Production Data";
                   st_dataframe_production (production_frame prods)])
  end.

End Rendering.

(** Python's [sum] over the rows, starting from 0. *)
Definition sum_run_time (rows : list (Z * Production)) : Q :=
  fold_left (fun acc r => (acc + run_time (snd r))%Q) rows 0%Q.

Definition sum_production_quantity (rows : list (Z * Production)) : Z :=
  fold_left (fun acc r => acc + production_quantity (snd r)) rows 0.

(** The body of the [for machine in machines] loop of [daily_report_page]. *)
Definition report_step (st : Store) (report_data : list ReportRow)
    (machine : Z * Machine) : list ReportRow :=
  let prods :=
    Table.filter (fun r => machine_id (snd r) =? fst machine) (productions st) in
  let total_run_time := sum_run_time prods in
  let total_production_quantity := sum_production_quantity prods in
  report_data ++
    [{| rep_machine_name := m_name (snd machine);
        rep_total_run_time := total_run_time;
        rep_total_production_quantity := total_production_quantity |}].

Definition build_report (st : Store) : list ReportRow :=
  fold_left (report_step st) (Table.all (machines st)) [].

Definition daily_report_page (w : World) : World * list ui :=
  let report_data := build_report (db w) in
  match report_data with
  | [] => (w, [st_title "Daily Report"; st_write "No report data available."])
  | _ :: _ => (w, [st_title "Daily Report"; st_dataframe_report report_data])
  end.

(** ** Machine monitoring *)

(** One pass of the sampling loop as the outside world shapes it.  The
    session expires the loaded machine at every commit, so each loop test
    after the first reads the machine's row again: [tick_ext] is the status
    another script run committed to that row while this one slept, if any,
    and [tick_now] is what [datetime.now] returns after the sleep. *)
Record Tick := {
  tick_ext : option string;
  tick_now : datetime
}.

(** [timedelta.total_seconds] *)
Definition total_seconds (delta : Z) : Q := (inject_Z delta / 1000000)%Q.

Definition elapsed_hours (start now : datetime) : Q :=
  (total_seconds (now - start) / 3600)%Q.

(** [time.sleep(1)]: the only point where the row can change under the loop. *)
Definition sleep (t : Tick) (i : Z) (st : Store) : Store :=
  match tick_ext t with
  | Some s => set_machine_status st i s
  | None => st
  end.

(** [machine.status == "Running"] *)
Definition status_is_running (st : Store) (i : Z) : bool :=
  match Table.get (machines st) i with
  | Some machine => (m_status (snd machine) =? "Running")%string
  | None => false
  end.

(** The loop either leaves with the final counter, or is still sampling
    when the observed ticks are used up. *)
Inductive loop_result :=
| LoopExit (st : Store) (production_quantity : Z)
| LoopSampling (st : Store) (production_quantity : Z).

Fixpoint sampling_loop (ticks : list Tick) (st : Store) (i : Z)
    (start : datetime) (quantity : Z) : loop_result :=
  if status_is_running st i then
    match ticks with
    | [] => LoopSampling st quantity
    | t :: ticks' =>
        let quantity := quantity + 1 in
        let st := sleep t i st in
        let entry :=
          {| machine_id := i; start_time := start; end_time := None;
             run_time := elapsed_hours start (tick_now t);
             production_quantity := quantity |} in
        sampling_loop ticks' (add_production st entry) i start quantity
    end
  else LoopExit st quantity.

Inductive outcome :=
| Returned (w : World) (shown : list ui)
| Sampling (w : World) (production_quantity : Z).

Definition outcome_world (o : outcome) : World :=
  match o with
  | Returned w _ => w
  | Sampling w _ => w
  end.

(** [hasattr(st.session_state, 'running_machine') and
     st.session_state.running_machine == machine_id] *)
Definition is_running_machine (w : World) (id : Z) : bool :=
  match running_machine w with
  | Some (Some i) => i =? id
  | _ => false
  end.

(** [monitor_machine]: [start] and [stop] are what the two buttons return,
    [now] is the clock when the start branch is entered. *)
Definition monitor_machine (id : Z) (start stop : bool) (now : datetime)
    (ticks : list Tick) (w : World) : outcome :=
  match Table.get (machines (db w)) id with
  | None => Returned w [st_error "Machine not found."]
  | Some machine =>
      if start then
        let session := Some (Some id) in
        match sampling_loop ticks (db w) (fst machine) now 0 with
        | LoopExit st quantity =>
            Returned {| db := st; running_machine := session |}
              [st_success (MonitoringStopped (m_name (snd machine)) quantity)]
        | LoopSampling st quantity =>
            Sampling {| db := st; running_machine := session |} quantity
        end
      else if stop then
        if is_running_machine w id then
          Returned {| db := set_machine_status (db w) (fst machine) "Idle";
                      running_machine := Some None |} []
        else
          Returned w [st_warning "This machine is not currently being monitored."]
      else Returned w []
  end.

(** ** The operations in scope

    [main] dispatches on the navigation bar to the five pages;
    [monitor_machine] is the sixth entry point of the script. *)

Inductive action :=
| Home
| AddMachine (name : string) (choice : status_choice) (submitted : bool)
    (now : datetime)
| AddProduct (name : string) (quantity : Z) (submitted : bool)
| ProductionData
| DailyReport
| MonitorMachine (id : Z) (start stop : bool) (now : datetime)
    (ticks : list Tick).

Definition page (r : World * list ui) : outcome := Returned (fst r) (snd r).

Definition run_action (strftime : datetime -> string) (a : action)
    (w : World) : outcome :=
  match a with
  | Home => page (home_page w)
  | AddMachine name choice submitted now =>
      page (add_machine_page name choice submitted now w)
  | AddProduct name quantity submitted =>
      page (add_product_page name quantity submitted w)
  | ProductionData => page (production_data_page strftime w)
  | DailyReport => page (daily_report_page w)
  | MonitorMachine id start stop now ticks =>
      monitor_machine id start stop now ticks w
  end.

Definition run_actions (strftime : datetime -> string) (acts : list action)
    (w : World) : World :=
  fold_left (fun w a => outcome_world (run_action strftime a w)) acts w.

(** ** Vocabulary of the statements *)

(** A tick during which nobody takes the machine out of "Running". *)
Definition keeps_running (t : Tick) : Prop :=
  tick_ext t = None \/ tick_ext t = Some "Running".

(** A tick during which another run commits a status other than "Running". *)
Definition flips (t : Tick) : Prop :=
  exists s, tick_ext t = Some s /\ s <> "Running".

Definition loop_store (r : loop_result) : Store :=
  match r with
  | LoopExit st _ => st
  | LoopSampling st _ => st
  end.

(** The entries a session adds tick by tick, counting from [quantity]. *)
Fixpoint session_entries (i : Z) (start : datetime) (quantity : Z)
    (ticks : list Tick) : list Production :=
  match ticks with
  | [] => []
  | t :: ticks' =>
      {| machine_id := i; start_time := start; end_time := None;
         run_time := elapsed_hours start (tick_now t);
         production_quantity := quantity + 1 |}
      :: session_entries i start (quantity + 1) ticks'
  end.

(** The status invariant of the data model. *)
Definition machine_ok (m : Machine) : Prop :=
  In (m_status m) status_options /\ m_name m <> "".

Definition machines_ok (st : Store) : Prop :=
  Forall (fun r => machine_ok (snd r)) (machines st).

(** Concurrent writers stay within the enumeration. *)
Definition ticks_in_scope (ticks : list Tick) : Prop :=
  Forall (fun t => forall s, tick_ext t = Some s -> In s status_options) ticks.

Definition action_in_scope (a : action) : Prop :=
  match a with
  | MonitorMachine _ _ _ _ ticks => ticks_in_scope ticks
  | _ => True
  end.


(** The report row of one machine. *)
Definition report_row (st : Store) (machine : Z * Machine) : ReportRow :=
  let prods :=
    Table.filter (fun r => machine_id (snd r) =? fst machine) (productions st) in
  {| rep_machine_name := m_name (snd machine);
     rep_total_run_time := sum_run_time prods;
     rep_total_production_quantity := sum_production_quantity prods |}.

(** ** The navigation bar *)

Definition menu_options : list string :=
  ["Home"; "Add Machine"; "Add Product"; "Production Data"; "Daily Report"].

(** What the widgets of the pages return in one run of the script. *)
Record Widgets := {
  inp_machine_name : string;
  inp_machine_status : status_choice;
  inp_machine_submitted : bool;
  inp_clock : datetime;
  inp_product_name : string;
  inp_quantity : Z;
  inp_product_submitted : bool
}.

(** [main]: [selected] is what [option_menu] returns. *)
Definition main (strftime : datetime -> string) (selected : string)
    (inp : Widgets) (w : World) : World * list ui :=
  if (selected =? "Home")%string then home_page w
  else if (selected =? "Add Machine")%string then
    add_machine_page (inp_machine_name inp) (inp_machine_status inp)
      (inp_machine_submitted inp) (inp_clock inp) w
  else if (selected =? "Add Product")%string then
    add_product_page (inp_product_name inp) (inp_quantity inp)
      (inp_product_submitted inp) w
  else if (selected =? "Production Data")%string then
    production_data_page strftime w
  else if (selected =? "Daily Report")%string then daily_report_page w
  else (w, []).

(** Successive runs of the script, each with its selection and widgets. *)
Definition run_main (strftime : datetime -> string)
    (runs : list (string * Widgets)) (w : World) : World :=
  fold_left (fun w r => fst (main strftime (fst r) (snd r) w)) runs w.

(** ** More vocabulary *)

(** A string made of white space only. *)
Fixpoint all_space (s : string) : bool :=
  match s with
  | EmptyString => true
  | String c s' => is_space c && all_space s'
  end.

(** The keys of a table are 1, 2, ..., n in row order. *)
Definition dense_ids {A} (tb : Table.t A) : Prop :=
  Table.ids tb = map Z.of_nat (seq 1 (List.length tb)).

(** A tick in which the only writer, if any, is another run's stop branch. *)
Definition stop_only (t : Tick) : Prop :=
  tick_ext t = None \/ tick_ext t = Some "Idle".

Definition action_in_program (a : action) : Prop :=
  match a with
  | MonitorMachine _ _ _ _ ticks => Forall stop_only ticks
  | _ => True
  end.

(** The columns of a machine that no operation writes. *)
Definition machine_identity (r : Z * Machine) : Z * string * option datetime :=
  (fst r, m_name (snd r), m_last_maintenance (snd r)).

(** The quantity total of a whole report and of a whole table. *)
Definition report_quantity (rows : list ReportRow) : Z :=
  fold_right Z.add 0 (map rep_total_production_quantity rows).

Definition table_quantity (rows : list (Z * Production)) : Z :=
  fold_right Z.add 0 (map (fun r => production_quantity (snd r)) rows).

Definition store_dense (st : Store) : Prop :=
  dense_ids (products st) /\ dense_ids (machines st)
  /\ dense_ids (productions st).

(** * Properties *)

(** ** Strings *)

Lemma strip_nonempty (s : string) : strip s <> "" -> s <> "".
Proof. intros H E. apply H. rewrite E. reflexivity. Qed.

Lemma strip_eqb_false (s : string) :
  (strip s =? "")%string = false <-> strip s <> "".
Proof. apply String.eqb_neq. Qed.

(** ** Tables *)

Module TableFacts.
Import Table.

Lemma le_fold_max (l : list Z) (i x : Z) :
  In x (i :: l) -> x <= fold_right Z.max i l.
Proof.
  induction l as [|y l IH]; simpl.
  - intros [E | []]. lia.
  - intros [E | [E | H]].
    + assert (x <= fold_right Z.max i l) by (apply IH; left; exact E). lia.
    + lia.
    + assert (x <= fold_right Z.max i l) by (apply IH; right; exact H). lia.
Qed.

Lemma next_id_fresh {A} (tb : t A) (r : Z * A) :
  In r tb -> fst r < next_id tb.
Proof.
  intros H. apply (in_map fst) in H. unfold next_id, ids.
  destruct (map fst tb) as [|i l] eqn:E; [contradiction |].
  pose proof (le_fold_max l i (fst r) H). lia.
Qed.

Lemma find_app_miss {A} (p : A -> bool) (l l' : list A) :
  (forall x, In x l -> p x = false) -> find p (l ++ l') = find p l'.
Proof.
  induction l as [|a l IH]; simpl; intros H; [reflexivity |].
  rewrite (H a) by (left; reflexivity). apply IH. intros x Hx. apply H. now right.
Qed.

Lemma find_app_hit {A} (p : A -> bool) (l l' : list A) (x : A) :
  find p l = Some x -> find p (l ++ l') = Some x.
Proof.
  induction l as [|a l IH]; simpl; [discriminate |].
  destruct (p a); [trivial | exact IH].
Qed.

Lemma get_insert_new {A} (tb : t A) (a : A) :
  get (insert tb a) (next_id tb) = Some (next_id tb, a).
Proof.
  unfold get, insert. rewrite find_app_miss.
  - simpl. now rewrite Z.eqb_refl.
  - intros r Hr. apply next_id_fresh in Hr. apply Z.eqb_neq. lia.
Qed.

Lemma get_insert_old {A} (tb : t A) (a : A) (i : Z) (r : Z * A) :
  get tb i = Some r -> get (insert tb a) i = Some r.
Proof. apply find_app_hit. Qed.

Lemma get_fst {A} (tb : t A) (i : Z) (r : Z * A) :
  get tb i = Some r -> fst r = i.
Proof.
  unfold get. intros H. apply find_some in H. now apply Z.eqb_eq.
Qed.

Lemma get_update_same {A} (tb : t A) (i : Z) (f : A -> A) :
  get (update tb i f) i =
  match get tb i with
  | Some r => Some (fst r, f (snd r))
  | None => None
  end.
Proof.
  unfold get, update. induction tb as [|r tb IH]; simpl; [reflexivity |].
  destruct (fst r =? i) eqn:E; simpl; rewrite E; [reflexivity | exact IH].
Qed.

Lemma insert_length {A} (tb : t A) (a : A) :
  List.length (insert tb a) = S (List.length tb).
Proof. unfold insert. rewrite length_app. simpl. lia. Qed.

Lemma insert_neq {A} (tb : t A) (a : A) : insert tb a <> tb.
Proof.
  intros E. apply (f_equal (@List.length _)) in E. rewrite insert_length in E. lia.
Qed.

End TableFacts.

(** ** The sampling loop *)

Section Loop.
Import TableFacts.

Variables (i : Z) (start : datetime).

Lemma keeps_or_flips (t : Tick) : keeps_running t \/ flips t.
Proof.
  unfold keeps_running, flips. destruct (tick_ext t) as [s|]; [| now left; left].
  destruct (String.eqb_spec s "Running") as [E | NE].
  - left. right. now rewrite E.
  - right. exists s. now split.
Qed.

Lemma status_add_production (st : Store) (e : Production) :
  status_is_running (add_production st e) i = status_is_running st i.
Proof. reflexivity. Qed.

Lemma status_set (st : Store) (s : string) :
  status_is_running st i = true ->
  status_is_running (set_machine_status st i s) i = (s =? "Running")%string.
Proof.
  unfold status_is_running, set_machine_status. simpl.
  rewrite get_update_same.
  destruct (Table.get (machines st) i); [reflexivity | discriminate].
Qed.

Lemma sleep_keeps (t : Tick) (st : Store) :
  keeps_running t -> status_is_running st i = true ->
  status_is_running (sleep t i st) i = true.
Proof.
  unfold sleep. intros [E | E] H; rewrite E; [exact H |].
  rewrite status_set by exact H. reflexivity.
Qed.

Lemma sleep_flips (t : Tick) (st : Store) :
  flips t -> status_is_running st i = true ->
  status_is_running (sleep t i st) i = false.
Proof.
  unfold sleep. intros (s & E & NE) H. rewrite E, status_set by exact H.
  now apply String.eqb_neq.
Qed.

Lemma sleep_productions (t : Tick) (st : Store) :
  productions (sleep t i st) = productions st.
Proof. unfold sleep. now destruct (tick_ext t). Qed.

Lemma loop_not_running (ticks : list Tick) (st : Store) (q : Z) :
  status_is_running st i = false ->
  sampling_loop ticks st i start q = LoopExit st q.
Proof. intros H. destruct ticks; simpl; now rewrite H. Qed.

(** While nobody flips the status, the loop runs through the ticks. *)
Lemma loop_prefix (pre rest : list Tick) :
  Forall keeps_running pre ->
  forall (st : Store) (q : Z),
  status_is_running st i = true ->
  exists st',
    sampling_loop (pre ++ rest) st i start q =
      sampling_loop rest st' i start (q + Z.of_nat (List.length pre))
    /\ status_is_running st' i = true
    /\ productions st' =
         fold_left Table.insert (session_entries i start q pre)
           (productions st).
Proof.
  induction 1 as [|t pre Ht _ IH]; intros st q Hrun.
  - exists st. simpl. rewrite Z.add_0_r. auto.
  - simpl app. cbn [sampling_loop]. rewrite Hrun.
    set (st1 := add_production (sleep t i st) _).
    destruct (IH st1 (q + 1)) as (st' & E & R & P).
    { subst st1. rewrite status_add_production. now apply sleep_keeps. }
    exists st'. split; [| split; [exact R |]].
    + rewrite E. f_equal. cbn [List.length]. lia.
    + rewrite P. subst st1. cbn [session_entries fold_left add_production productions].
      now rewrite sleep_productions.
Qed.

(** The tick in which the status is flipped is the last one. *)
Lemma loop_flip (t : Tick) (post : list Tick) (st : Store) (q : Z) :
  flips t -> status_is_running st i = true ->
  exists st',
    sampling_loop (t :: post) st i start q = LoopExit st' (q + 1)
    /\ productions st' =
         fold_left Table.insert (session_entries i start q [t])
           (productions st).
Proof.
  intros Ht Hrun. cbn [sampling_loop]. rewrite Hrun.
  set (st1 := add_production (sleep t i st) _).
  exists st1. split.
  - apply loop_not_running. subst st1. rewrite status_add_production.
    now apply sleep_flips.
  - subst st1. cbn [session_entries fold_left add_production productions].
    now rewrite sleep_productions.
Qed.

Lemma session_entries_app (pre post : list Tick) (q : Z) :
  session_entries i start q (pre ++ post) =
  session_entries i start q pre ++
  session_entries i start (q + Z.of_nat (List.length pre)) post.
Proof.
  revert q. induction pre as [|t pre IH]; intros q; simpl app.
  - cbn [session_entries List.length Z.of_nat]. now rewrite Z.add_0_r.
  - cbn [session_entries]. rewrite IH. cbn [app List.length].
    do 3 f_equal. lia.
Qed.

Lemma loop_session (pre post : list Tick) (t : Tick) (st : Store) (q : Z) :
  Forall keeps_running pre -> flips t ->
  status_is_running st i = true ->
  exists st',
    sampling_loop (pre ++ t :: post) st i start q =
      LoopExit st' (q + Z.of_nat (List.length (pre ++ [t])))
    /\ productions st' =
         fold_left Table.insert (session_entries i start q (pre ++ [t]))
           (productions st).
Proof.
  intros Hpre Ht Hrun.
  destruct (loop_prefix pre (t :: post) Hpre st q Hrun) as (st1 & E & R & P).
  destruct (loop_flip t post st1 (q + Z.of_nat (List.length pre)) Ht R)
    as (st2 & E2 & P2).
  exists st2. split.
  - rewrite E, E2. f_equal. rewrite length_app. cbn [List.length]. lia.
  - rewrite P2, P, session_entries_app, fold_left_app. reflexivity.
Qed.

Lemma loop_blocked (ticks : list Tick) (st : Store) (q : Z) :
  Forall keeps_running ticks -> status_is_running st i = true ->
  exists st',
    sampling_loop ticks st i start q =
      LoopSampling st' (q + Z.of_nat (List.length ticks))
    /\ status_is_running st' i = true.
Proof.
  intros Hk Hrun.
  destruct (loop_prefix ticks [] Hk st q Hrun) as (st' & E & R & _).
  exists st'. split; [| exact R].
  rewrite app_nil_r in E. rewrite E. simpl. now rewrite R.
Qed.

(** What a session appends, read off [session_entries]. *)

Lemma session_entries_length (ticks : list Tick) (q : Z) :
  List.length (session_entries i start q ticks) = List.length ticks.
Proof. revert q. induction ticks; intros q; simpl; [| rewrite IHticks]; auto. Qed.

Lemma session_entries_quantity (ticks : list Tick) (q : Z) :
  map production_quantity (session_entries i start q ticks) =
  map (fun k => q + Z.of_nat k) (seq 1 (List.length ticks)).
Proof.
  revert q. induction ticks as [|t ticks IH]; intros q; [reflexivity |].
  cbn [session_entries map List.length seq production_quantity].
  f_equal. rewrite IH, <- (seq_shift (List.length ticks) 1), map_map.
  apply map_ext. intros k. lia.
Qed.


Lemma session_entries_fields (ticks : list Tick) (q : Z) :
  Forall (fun e => machine_id e = i /\ start_time e = start
                   /\ end_time e = None)
    (session_entries i start q ticks).
Proof.
  revert q. induction ticks; intros q; simpl; constructor; auto.
Qed.

End Loop.

(** ** Appending rows *)

Lemma insert_all {A} (es : list A) (tb : Table.t A) :
  exists rows, fold_left Table.insert es tb = tb ++ rows /\ map snd rows = es.
Proof.
  revert tb. induction es as [|e es IH]; intros tb.
  - exists []. now rewrite app_nil_r.
  - destruct (IH (Table.insert tb e)) as (rows & E & M).
    exists ((Table.next_id tb, e) :: rows). split.
    + simpl. rewrite E. unfold Table.insert. now rewrite <- app_assoc.
    + simpl. now rewrite M.
Qed.


(** ** The status invariant *)

Lemma update_status_ok (tb : Table.t Machine) (i : Z) (s : string) :
  In s status_options ->
  Forall (fun r => machine_ok (snd r)) tb ->
  Forall (fun r => machine_ok (snd r)) (Table.update tb i (with_status s)).
Proof.
  intros Hs H. unfold Table.update. apply Forall_map.
  eapply Forall_impl; [| exact H]. intros r [Hr Hn].
  destruct (fst r =? i); simpl; split; assumption.
Qed.

Lemma sleep_ok (t : Tick) (i : Z) (st : Store) :
  (forall s, tick_ext t = Some s -> In s status_options) ->
  machines_ok st -> machines_ok (sleep t i st).
Proof.
  unfold sleep. intros Ht H. destruct (tick_ext t) as [s|]; [| exact H].
  apply update_status_ok; [now apply Ht | exact H].
Qed.

Lemma loop_machines_ok (i : Z) (start : datetime) (ticks : list Tick) :
  ticks_in_scope ticks ->
  forall (st : Store) (q : Z),
  machines_ok st ->
  machines_ok (loop_store (sampling_loop ticks st i start q)).
Proof.
  induction 1 as [|t ticks Ht _ IH]; intros st q H; simpl;
    destruct (status_is_running st i); try exact H.
  apply IH. now apply sleep_ok.
Qed.

(** ** Sums *)

Lemma fold_append {A B} (f : A -> B) (l : list A) (init : list B) :
  fold_left (fun acc x => acc ++ [f x]) l init = init ++ map f l.
Proof.
  revert init. induction l as [|a l IH]; intros init; simpl.
  - now rewrite app_nil_r.
  - now rewrite IH, <- app_assoc.
Qed.





Lemma sumZ_shift {A} (g : A -> Z) (l : list A) (a : Z) :
  fold_left (fun acc r => acc + g r) l a = a + fold_right Z.add 0 (map g l).
Proof.
  revert a. induction l as [|x l IH]; intros a; simpl; [lia |].
  rewrite IH. lia.
Qed.



(** ** The clock *)



(** ** Monitoring sessions *)

Lemma status_of_get (st : Store) (id : Z) (m : Machine) :
  Table.get (machines st) id = Some (id, m) ->
  status_is_running st id = (m_status m =? "Running")%string.
Proof. unfold status_is_running. now intros ->. Qed.

Lemma get_none {A} (tb : Table.t A) (id : Z) :
  ~ In id (Table.ids tb) -> Table.get tb id = None.
Proof.
  intros H. unfold Table.get. destruct (find _ tb) as [r|] eqn:E; [| reflexivity].
  apply find_some in E. destruct E as [Hin Heq]. apply Z.eqb_eq in Heq.
  exfalso. apply H. rewrite <- Heq. now apply in_map.
Qed.

Lemma get_update_other {A} (tb : Table.t A) (i j : Z) (f : A -> A) :
  j <> i -> Table.get (Table.update tb i f) j = Table.get tb j.
Proof.
  intros NE. unfold Table.get, Table.update.
  induction tb as [|r tb IH]; simpl; [reflexivity |].
  destruct (fst r =? i) eqn:E; simpl.
  - apply Z.eqb_eq in E. destruct (fst r =? j) eqn:E'; [| exact IH].
    apply Z.eqb_eq in E'. congruence.
  - destruct (fst r =? j); [reflexivity | exact IH].
Qed.



Lemma all_keep_or_some_flips (ticks : list Tick) :
  Forall keeps_running ticks \/ Exists flips ticks.
Proof.
  induction ticks as [|t ticks [IH | IH]].
  - left. constructor.
  - destruct (keeps_or_flips t) as [K | F].
    + left. now constructor.
    + right. now constructor.
  - right. now constructor 2.
Qed.

(** C2. For a machine that is being monitored: (a) as long as nobody
    takes the machine out of "Running" the loop is still sampling, and the
    stop branch, taken in the world of that session, commits status "Idle"
    to the machine's row; (b) when status "Idle" is committed during the
    sleep of a tick, the loop leaves at its next test, the row of the tick
    in progress being the last one it inserts, whatever the world would
    have done afterwards; (c) the loop only ever leaves after some tick in
    which another actor committed a status other than "Running". *)
Theorem stop_ends_sampling_loop (id : Z) (m : Machine) (w : World)
    (stop : bool) (now : datetime) :
  Table.get (machines (db w)) id = Some (id, m) ->
  m_status m = "Running" ->
  (forall ticks,
     Forall keeps_running ticks ->
     exists w' m',
       monitor_machine id true stop now ticks w =
         Sampling w' (Z.of_nat (List.length ticks))
       /\ Table.get (machines (db w')) id = Some (id, m')
       /\ m_status m' = "Running"
       /\ forall now' ticks',
            monitor_machine id false true now' ticks' w' =
              Returned {| db := set_machine_status (db w') id "Idle";
                          running_machine := Some None |} []
            /\ Table.get (machines (set_machine_status (db w') id "Idle")) id =
                 Some (id, with_status "Idle" m'))
  /\ (forall pre t post,
        Forall keeps_running pre -> tick_ext t = Some "Idle" ->
        exists st rows,
          monitor_machine id true stop now (pre ++ t :: post) w =
            Returned {| db := st; running_machine := Some (Some id) |}
              [st_success (MonitoringStopped (m_name m)
                             (Z.of_nat (List.length pre) + 1))]
          /\ productions st = productions (db w) ++ rows
          /\ List.length rows = S (List.length pre))
  /\ (forall ticks w' shown,
        monitor_machine id true stop now ticks w = Returned w' shown ->
        Exists flips ticks).
Proof.
  intros Hget Hst.
  assert (Hrun : status_is_running (db w) id = true).
  { rewrite (status_of_get _ _ _ Hget), Hst. reflexivity. }
  assert (Hblocked : forall ticks, Forall keeps_running ticks ->
            exists st,
              monitor_machine id true stop now ticks w =
                Sampling {| db := st; running_machine := Some (Some id) |}
                  (Z.of_nat (List.length ticks))
              /\ status_is_running st id = true).
  { intros ticks Hk.
    destruct (loop_blocked id now ticks (db w) 0 Hk Hrun) as (st & E & R).
    exists st. split; [| exact R].
    unfold monitor_machine. rewrite Hget. cbn [fst snd]. now rewrite E. }
  split; [| split].
  - intros ticks Hk. destruct (Hblocked ticks Hk) as (st & E & R).
    unfold status_is_running in R.
    destruct (Table.get (machines st) id) as [[j m']|] eqn:G; [| discriminate].
    pose proof (TableFacts.get_fst _ _ _ G) as Hj. cbn [fst snd] in Hj, R.
    subst j. apply String.eqb_eq in R.
    exists {| db := st; running_machine := Some (Some id) |}, m'.
    repeat split; try assumption.
    + unfold monitor_machine, is_running_machine. cbn [db running_machine].
      rewrite G, Z.eqb_refl. reflexivity.
    + cbn [db set_machine_status machines].
      rewrite TableFacts.get_update_same, G. reflexivity.
  - intros pre t post Hpre Ht.
    assert (Hflip : flips t).
    { exists "Idle". split; [exact Ht | discriminate]. }
    destruct (loop_session id now pre post t (db w) 0 Hpre Hflip Hrun)
      as (st & E & P).
    destruct (insert_all (session_entries id now 0 (pre ++ [t]))
                (productions (db w))) as (rows & R & M).
    assert (HN : 0 + Z.of_nat (List.length (pre ++ [t])) =
                 Z.of_nat (List.length pre) + 1).
    { rewrite length_app. cbn [List.length]. lia. }
    rewrite HN in E.
    exists st, rows. unfold monitor_machine. rewrite Hget. cbn [fst snd].
    rewrite E. repeat split.
    + now rewrite P, <- R.
    + rewrite <- (length_map snd), M, session_entries_length, length_app.
      cbn [List.length]. lia.
  - intros ticks w' shown Hret.
    destruct (all_keep_or_some_flips ticks) as [Hk | Hex]; [| exact Hex].
    destruct (Hblocked ticks Hk) as (st & E & _). rewrite E in Hret.
    discriminate.
Qed.

Lemma stop_ends_sampling_loop_witness :
  let press := {| m_name := "press"; m_status := "Running";
                  m_last_maintenance := Some 0 |} in
  let w := {| db := add_machine empty_store press; running_machine := None |} in
  let quiet := fun n => {| tick_ext := None; tick_now := n |} in
  let halt := {| tick_ext := Some "Idle"; tick_now := 2000000 |} in
  (exists w' m',
     monitor_machine 1 true false 0 [quiet 1000000; quiet 2000000] w =
       Sampling w' 2
     /\ monitor_machine 1 false true 0 [] w' =
          Returned {| db := set_machine_status (db w') 1 "Idle";
                      running_machine := Some None |} []
     /\ Table.get (machines (set_machine_status (db w') 1 "Idle")) 1 =
          Some (1, with_status "Idle" m'))
  /\ (exists st rows,
        monitor_machine 1 true false 0
          ([quiet 1000000] ++ halt :: [quiet 3000000]) w =
          Returned {| db := st; running_machine := Some (Some 1) |}
            [st_success (MonitoringStopped "press" 2)]
        /\ productions st = productions (db w) ++ rows
        /\ List.length rows = 2%nat).
Proof.
  intros press w quiet halt.
  destruct (stop_ends_sampling_loop 1 press w false 0 eq_refl eq_refl)
    as (A & B & _).
  split.
  - destruct (A [quiet 1000000; quiet 2000000]) as (w' & m' & E & _ & _ & S).
    + repeat constructor.
    + exists w', m'. split; [exact E |]. apply (S 0 []).
  - apply (B [quiet 1000000] halt [quiet 3000000]).
    + repeat constructor.
    + reflexivity.
Defined.

(** ** The daily report *)

Lemma build_report_map (st : Store) :
  build_report st = map (report_row st) (machines st).
Proof.
  unfold build_report, Table.all.
  change (report_step st) with (fun acc x => acc ++ [report_row st x]).
  now rewrite fold_append.
Qed.



(** ** Monitoring a machine that does not exist, and stopping *)

(** C4. On a machine id that is not in the store, monitoring reports
    "Machine not found." and returns at once, whatever the buttons say: no
    production row is inserted and the store and the session state are the
    ones it started in. *)
Theorem monitor_unknown_machine (id : Z) (start stop : bool) (now : datetime)
    (ticks : list Tick) (w : World) :
  ~ In id (Table.ids (machines (db w))) ->
  monitor_machine id start stop now ticks w =
    Returned w [st_error "Machine not found."].
Proof.
  intros H. unfold monitor_machine. now rewrite (get_none _ _ H).
Qed.

Lemma monitor_unknown_machine_witness :
  monitor_machine 7 true false 0
    [{| tick_ext := None; tick_now := 1000000 |}] initial_world =
  Returned initial_world [st_error "Machine not found."].
Proof.
  apply monitor_unknown_machine. simpl. tauto.
Defined.



(** ** Creating products and machines *)

Lemma add_product_page_accepts (name : string) (quantity : Z) (w : World) :
  strip name <> "" -> 0 < quantity ->
  add_product_page name quantity true w =
    ({| db := add_product (db w)
               {| p_name := name; p_price := 0; p_quantity := quantity |};
        running_machine := running_machine w |},
     [st_title "Add New Product"; st_success (AddedProduct name 0);
      st_balloons]).
Proof.
  intros Hn Hq. unfold add_product_page.
  apply strip_eqb_false in Hn. rewrite Hn.
  destruct (Z.leb_spec quantity 0); [lia | reflexivity].
Qed.

Lemma add_product_page_rejects (name : string) (quantity : Z) (w : World) :
  strip name = "" \/ quantity <= 0 ->
  exists msg,
    add_product_page name quantity true w =
      (w, [st_title "Add New Product"; st_error msg]).
Proof.
  intros H. unfold add_product_page.
  destruct (String.eqb_spec (strip name) "") as [E | NE].
  - eexists. reflexivity.
  - destruct H as [E | Hq]; [contradiction |].
    destruct (Z.leb_spec quantity 0); [| lia]. eexists. reflexivity.
Qed.

(** C6, as the code has it.  A submitted product is stored exactly when
    its name has a character that is not white space ([name.strip()] is not
    empty) and its quantity is above 0; a submission with a blank name or a
    quantity of 0 or less shows an error, stores nothing and leaves the
    world as it was. *)
Theorem product_creation_guard (name : string) (quantity : Z) (w : World) :
  let r := add_product_page name quantity true w in
  (products (db (fst r)) <> products (db w) <->
   strip name <> "" /\ 0 < quantity)
  /\ (strip name <> "" /\ 0 < quantity ->
      products (db (fst r)) =
        products (db w) ++
          [(Table.next_id (products (db w)),
            {| p_name := name; p_price := 0; p_quantity := quantity |})]
      /\ machines (db (fst r)) = machines (db w)
      /\ productions (db (fst r)) = productions (db w))
  /\ (strip name = "" \/ quantity <= 0 ->
      fst r = w
      /\ exists msg, snd r = [st_title "Add New Product"; st_error msg]).
Proof.
  intros r. subst r. split; [| split].
  - split.
    + intros Hch.
      destruct (String.eqb_spec (strip name) "") as [E | NE];
        [| destruct (Z.leb_spec quantity 0) as [Hq | Hq]; [| now split]];
        exfalso; apply Hch.
      * destruct (add_product_page_rejects name quantity w (or_introl E))
          as (msg & ->). reflexivity.
      * destruct (add_product_page_rejects name quantity w (or_intror Hq))
          as (msg & ->). reflexivity.
    + intros [Hn Hq]. rewrite (add_product_page_accepts name quantity w Hn Hq).
      cbn [fst db add_product products]. apply TableFacts.insert_neq.
  - intros [Hn Hq]. rewrite (add_product_page_accepts name quantity w Hn Hq).
    repeat split.
  - intros H. destruct (add_product_page_rejects name quantity w H) as (msg & ->).
    split; [reflexivity | now exists msg].
Qed.

Lemma product_creation_guard_witness :
  products (db (fst (add_product_page "bolt" 5 true initial_world))) =
    [(1, {| p_name := "bolt"; p_price := 0; p_quantity := 5 |})]
  /\ fst (add_product_page "bolt" 0 true initial_world) = initial_world.
Proof.
  destruct (product_creation_guard "bolt" 5 initial_world) as (_ & A & _).
  destruct (product_creation_guard "bolt" 0 initial_world) as (_ & _ & B).
  split.
  - apply A. split; [discriminate | reflexivity].
  - apply B. right. discriminate.
Defined.

(** C6, as the specification states it, fails on a name made of a space:
    the name is not empty and the quantity is above 0, yet the page shows
    an error and stores nothing. *)
Lemma blank_product_name_rejected :
  " " <> "" /\ 0 < 1
  /\ add_product_page " " 1 true initial_world =
       (initial_world,
        [st_title "Add New Product"; st_error "Product name cannot be empty!"])
  /\ products (db (fst (add_product_page " " 1 true initial_world))) =
       products (db initial_world).
Proof. repeat split. discriminate. Qed.

(** C8. Whatever name and quantity the operator enters, the product a
    successful creation stores has price 0.0: fetched by the id it was
    given, the row has the entered name and quantity and price 0. *)
Theorem stored_product_price_zero (name : string) (quantity : Z) (w : World) :
  strip name <> "" -> 0 < quantity ->
  let w' := fst (add_product_page name quantity true w) in
  let id := Table.next_id (products (db w)) in
  Table.get (products (db w')) id =
    Some (id, {| p_name := name; p_price := 0; p_quantity := quantity |})
  /\ forall p, Table.get (products (db w')) id = Some (id, p) ->
               p_price p = 0%Q.
Proof.
  intros Hn Hq w' id. subst w'.
  rewrite (add_product_page_accepts name quantity w Hn Hq).
  cbn [fst db add_product products]. subst id.
  rewrite TableFacts.get_insert_new. split; [reflexivity |].
  intros p E. injection E as <-. reflexivity.
Qed.

Lemma stored_product_price_zero_witness :
  Table.get
    (products (db (fst (add_product_page "bolt" 5 true initial_world)))) 1 =
  Some (1, {| p_name := "bolt"; p_price := 0; p_quantity := 5 |}).
Proof.
  apply (stored_product_price_zero "bolt" 5 initial_world);
    [discriminate | reflexivity].
Defined.

(** C9. A row inserted into a table and then fetched by the id it was
    given comes back with that id and every column as inserted; so it is
    for the three tables of the store, and for a machine added through the
    add-machine page and fetched the way [monitor_machine] does. *)
Theorem insert_get_round_trip :
  (forall (A : Type) (tb : Table.t A) (a : A),
     Table.get (Table.insert tb a) (Table.next_id tb) =
       Some (Table.next_id tb, a))
  /\ (forall st p,
        Table.get (products (add_product st p)) (Table.next_id (products st)) =
          Some (Table.next_id (products st), p))
  /\ (forall st m,
        Table.get (machines (add_machine st m)) (Table.next_id (machines st)) =
          Some (Table.next_id (machines st), m))
  /\ (forall st e,
        Table.get (productions (add_production st e))
          (Table.next_id (productions st)) =
          Some (Table.next_id (productions st), e))
  /\ (forall name choice now w,
        strip name <> "" ->
        let w' := fst (add_machine_page name choice true now w) in
        let id := Table.next_id (machines (db w)) in
        Table.get (machines (db w')) id =
          Some (id, {| m_name := name; m_status := selectbox choice;
                       m_last_maintenance := Some now |})).
Proof.
  repeat split; intros.
  - apply TableFacts.get_insert_new.
  - apply TableFacts.get_insert_new.
  - apply TableFacts.get_insert_new.
  - apply TableFacts.get_insert_new.
  - subst w' id. unfold add_machine_page.
    apply strip_eqb_false in H. rewrite H. apply TableFacts.get_insert_new.
Qed.

Lemma insert_get_round_trip_witness :
  Table.get
    (machines (db (fst (add_machine_page "press" Maintenance true 42
                          initial_world)))) 1 =
  Some (1, {| m_name := "press"; m_status := "Maintenance";
              m_last_maintenance := Some 42 |}).
Proof.
  destruct insert_get_round_trip as (_ & _ & _ & _ & H).
  apply (H "press" Maintenance 42 initial_world). discriminate.
Defined.

(** ** Invariants over all operations *)

Lemma selectbox_in_options (c : status_choice) : In (selectbox c) status_options.
Proof. destruct c; simpl; tauto. Qed.

Lemma production_data_page_world (strftime : datetime -> string) (w : World) :
  fst (production_data_page strftime w) = w.
Proof.
  unfold production_data_page. now destruct (Table.all (productions (db w))).
Qed.

Lemma daily_report_page_world (w : World) : fst (daily_report_page w) = w.
Proof. unfold daily_report_page. now destruct (build_report (db w)). Qed.

Lemma monitor_machine_store (id : Z) (start stop : bool) (now : datetime)
    (ticks : list Tick) (w : World) :
  db (outcome_world (monitor_machine id start stop now ticks w)) = db w
  \/ (exists machine, Table.get (machines (db w)) id = Some machine
        /\ db (outcome_world (monitor_machine id start stop now ticks w)) =
             loop_store (sampling_loop ticks (db w) (fst machine) now 0))
  \/ (exists machine, Table.get (machines (db w)) id = Some machine
        /\ db (outcome_world (monitor_machine id start stop now ticks w)) =
             set_machine_status (db w) (fst machine) "Idle").
Proof.
  unfold monitor_machine.
  destruct (Table.get (machines (db w)) id) as [machine|]; [| now left].
  destruct start.
  - right. left. exists machine. split; [reflexivity |].
    now destruct (sampling_loop ticks (db w) (fst machine) now 0).
  - destruct stop; [| now left].
    destruct (is_running_machine w id); [| now left].
    right. right. exists machine. now split.
Qed.

Lemma run_action_machines_ok (strftime : datetime -> string) (a : action)
    (w : World) :
  action_in_scope a -> machines_ok (db w) ->
  machines_ok (db (outcome_world (run_action strftime a w))).
Proof.
  intros Ha Hw. destruct a; cbn [run_action page outcome_world].
  - exact Hw.
  - unfold add_machine_page. destruct submitted; [| exact Hw].
    destruct (String.eqb_spec (strip name) "") as [E | NE]; [exact Hw |].
    cbn [fst db add_machine]. unfold machines_ok, Table.insert. cbn [machines].
    apply Forall_app. split; [exact Hw |]. constructor; [| constructor].
    split; [apply selectbox_in_options | now apply strip_nonempty].
  - unfold add_product_page. destruct submitted; [| exact Hw].
    destruct (strip name =? "")%string; [exact Hw |].
    destruct (quantity <=? 0); exact Hw.
  - now rewrite production_data_page_world.
  - now rewrite daily_report_page_world.
  - destruct (monitor_machine_store id start stop now ticks w)
      as [-> | [(machine & _ & ->) | (machine & _ & ->)]].
    + exact Hw.
    + now apply loop_machines_ok.
    + apply update_status_ok; [simpl; tauto | exact Hw].
Qed.

(** C7. A machine stored by the add-machine page has one of the statuses
    Running, Idle, Maintenance and a name that is not empty.  Every
    operation keeps this true of all stored machines, concurrent writers
    staying within the enumeration; so it holds in every world the
    operations reach from the empty store. *)
Theorem machine_status_invariant (strftime : datetime -> string) :
  (forall name choice now w,
     strip name <> "" ->
     let w' := fst (add_machine_page name choice true now w) in
     exists m,
       machines (db w') =
         machines (db w) ++ [(Table.next_id (machines (db w)), m)]
       /\ m_name m = name /\ m_status m = selectbox choice /\ machine_ok m)
  /\ (forall a w,
        action_in_scope a -> machines_ok (db w) ->
        machines_ok (db (outcome_world (run_action strftime a w))))
  /\ (forall acts,
        Forall action_in_scope acts ->
        machines_ok (db (run_actions strftime acts initial_world))).
Proof.
  split; [| split].
  - intros name choice now w Hn w'. subst w'. unfold add_machine_page.
    pose proof (strip_nonempty _ Hn) as Hne.
    apply strip_eqb_false in Hn. rewrite Hn. eexists. split; [reflexivity |].
    repeat split; [apply selectbox_in_options | exact Hne].
  - intros a w. apply run_action_machines_ok.
  - intros acts Hacts. unfold run_actions.
    assert (H : machines_ok (db initial_world)) by constructor.
    revert H. generalize initial_world.
    induction Hacts as [|a acts Ha _ IH]; intros w Hw; [exact Hw |].
    cbn [fold_left]. apply IH. now apply run_action_machines_ok.
Qed.

Lemma machine_status_invariant_witness :
  let acts :=
    [AddMachine "press" Running true 0;
     MonitorMachine 1 true false 10
       [{| tick_ext := None; tick_now := 1000010 |};
        {| tick_ext := Some "Idle"; tick_now := 2000010 |}];
     AddMachine "  " Idle true 20;
     AddMachine "lathe" Maintenance true 30] in
  machines_ok (db (run_actions (fun _ => "") acts initial_world))
  /\ map (fun r => m_status (snd r))
       (machines (db (run_actions (fun _ => "") acts initial_world))) =
     ["Idle"; "Maintenance"].
Proof.
  intros acts. split; [| reflexivity].
  destruct (machine_status_invariant (fun _ => "")) as (_ & _ & H).
  apply H. constructor; [exact I |]. constructor; [| repeat constructor].
  constructor; [intros s E; discriminate E |]. constructor; [| constructor].
  intros s E. injection E as <-. simpl. tauto.
Defined.




(** * Further properties *)

(** ** Names made of white space *)

Lemma lstrip_all_space (s : string) : all_space s = true -> lstrip s = "".
Proof.
  induction s as [|c s IH]; simpl; [reflexivity |].
  intros H. apply andb_prop in H. destruct H as [Hc Hs]. now rewrite Hc, IH.
Qed.

Lemma lstrip_head (s : string) :
  all_space s = false ->
  exists c r, lstrip s = String c r /\ is_space c = false.
Proof.
  induction s as [|c s IH]; simpl; [discriminate |].
  destruct (is_space c) eqn:Hc; simpl; [exact IH |].
  intros _. now exists c, s.
Qed.

Lemma rstrip_head (c : ascii) (r : string) :
  is_space c = false -> rstrip (String c r) <> "".
Proof.
  intros Hc. cbn [rstrip]. rewrite Hc. now destruct (rstrip r).
Qed.

Lemma strip_blank_iff (s : string) : strip s = "" <-> all_space s = true.
Proof.
  unfold strip. split.
  - intros H. destruct (all_space s) eqn:E; [reflexivity |].
    destruct (lstrip_head s E) as (c & r & L & Hc). rewrite L in H.
    now apply rstrip_head in H.
  - intros H. now rewrite lstrip_all_space.
Qed.

Lemma strip_eqb_blank (s : string) : (strip s =? "")%string = all_space s.
Proof.
  destruct (all_space s) eqn:E.
  - apply String.eqb_eq. now apply strip_blank_iff.
  - apply String.eqb_neq. intros H. apply strip_blank_iff in H. congruence.
Qed.

(** X1. The add-machine form stores a machine exactly when it is
    submitted with a name that has a character other than white space.  It
    then appends one row holding the name as typed (white space around it
    included), the selected status and the current time, and touches
    nothing else; a submitted name of white space only shows the error and
    leaves the world as it was, and so does a run without submission. *)
Theorem add_machine_page_guard (name : string) (choice : status_choice)
    (submitted : bool) (now : datetime) (w : World) :
  let r := add_machine_page name choice submitted now w in
  (machines (db (fst r)) <> machines (db w) <->
   submitted = true /\ all_space name = false)
  /\ (submitted = true -> all_space name = false ->
      r = ({| db := {| products := products (db w);
                       machines :=
                         machines (db w) ++
                           [(Table.next_id (machines (db w)),
                             {| m_name := name; m_status := selectbox choice;
                                m_last_maintenance := Some now |})];
                       productions := productions (db w) |};
              running_machine := running_machine w |},
           [st_title "Add New Machine"; st_success (AddedMachine name);
            st_balloons]))
  /\ (submitted = true -> all_space name = true ->
      r = (w, [st_title "Add New Machine";
               st_error "Machine name cannot be empty!"]))
  /\ (submitted = false -> r = (w, [st_title "Add New Machine"])).
Proof.
  intros r. subst r. unfold add_machine_page. rewrite strip_eqb_blank.
  destruct submitted, (all_space name); cbn [fst snd db add_machine machines];
    (split;
     [ split;
       [ intros H; first [now split | exfalso; apply H; reflexivity]
       | intros [H1 H2];
         first [discriminate H1 | discriminate H2
               | apply TableFacts.insert_neq] ]
     | repeat split; intros; first [discriminate | reflexivity] ]).
Qed.

Lemma add_machine_page_guard_witness :
  machines (db (fst (add_machine_page " press " Idle true 7 initial_world))) =
    [(1, {| m_name := " press "; m_status := "Idle";
            m_last_maintenance := Some 7 |})]
  /\ add_machine_page "  " Idle true 7 initial_world =
       (initial_world,
        [st_title "Add New Machine"; st_error "Machine name cannot be empty!"])
  /\ add_machine_page "press" Idle false 7 initial_world =
       (initial_world, [st_title "Add New Machine"]).
Proof.
  destruct (add_machine_page_guard " press " Idle true 7 initial_world)
    as (_ & A & _).
  destruct (add_machine_page_guard "  " Idle true 7 initial_world)
    as (_ & _ & B & _).
  destruct (add_machine_page_guard "press" Idle false 7 initial_world)
    as (_ & _ & _ & C).
  split; [| split].
  - now rewrite (A eq_refl eq_refl).
  - apply (B eq_refl eq_refl).
  - apply (C eq_refl).
Defined.

(** X2. Which error the add-product page shows: a submitted name of white
    space only gives the name error whatever the quantity is (the name is
    checked first); a name with some other character and a quantity of 0 or
    less gives the quantity error; a run without submission shows neither
    and stores nothing. *)
Theorem add_product_page_errors (name : string) (quantity : Z) (w : World) :
  (all_space name = true ->
   add_product_page name quantity true w =
     (w, [st_title "Add New Product";
          st_error "Product name cannot be empty!"]))
  /\ (all_space name = false -> quantity <= 0 ->
      add_product_page name quantity true w =
        (w, [st_title "Add New Product";
             st_error "Quantity must be greater than 0!"]))
  /\ add_product_page name quantity false w = (w, [st_title "Add New Product"]).
Proof.
  unfold add_product_page. rewrite strip_eqb_blank. repeat split.
  - now intros ->.
  - intros -> Hq. now destruct (Z.leb_spec quantity 0); [| lia].
Qed.

Lemma add_product_page_errors_witness :
  add_product_page "   " 0 true initial_world =
    (initial_world,
     [st_title "Add New Product"; st_error "Product name cannot be empty!"])
  /\ add_product_page "bolt" (-3) true initial_world =
       (initial_world,
        [st_title "Add New Product";
         st_error "Quantity must be greater than 0!"]).
Proof.
  destruct (add_product_page_errors "   " 0 initial_world) as (A & _).
  destruct (add_product_page_errors "bolt" (-3) initial_world) as (_ & B & _).
  split; [apply A; reflexivity | apply B; [reflexivity | lia]].
Defined.

(** ** What the store keeps *)

Lemma get_in_ids {A} (tb : Table.t A) (i : Z) (r : Z * A) :
  Table.get tb i = Some r -> In i (Table.ids tb).
Proof.
  intros H. pose proof (TableFacts.get_fst _ _ _ H) as E.
  apply find_some in H. destruct H as [H _]. rewrite <- E. now apply in_map.
Qed.

Lemma next_id_unused {A} (tb : Table.t A) : ~ In (Table.next_id tb) (Table.ids tb).
Proof.
  intros H. apply in_map_iff in H. destruct H as (r & E & Hr).
  apply TableFacts.next_id_fresh in Hr. lia.
Qed.

(** X3. The key given to a new row was not in use, so no row is fetched
    under it before the insertion; the insertion changes what is fetched
    under that key only, and appends: the rows already there keep their
    place and their columns. *)
Theorem insert_keeps_rows (A : Type) (tb : Table.t A) (a : A) :
  Table.get tb (Table.next_id tb) = None
  /\ (forall i, i <> Table.next_id tb ->
        Table.get (Table.insert tb a) i = Table.get tb i)
  /\ (forall k row, nth_error tb k = Some row ->
        nth_error (Table.all (Table.insert tb a)) k = Some row)
  /\ List.length (Table.all (Table.insert tb a)) = S (List.length tb).
Proof.
  split; [| split; [| split]].
  - apply get_none, next_id_unused.
  - intros i Hi. destruct (Table.get tb i) as [r|] eqn:G.
    + now apply TableFacts.get_insert_old.
    + unfold Table.get, Table.insert in *. rewrite TableFacts.find_app_miss.
      * simpl. destruct (Z.eqb_spec (Table.next_id tb) i); congruence.
      * intros x Hx. apply (find_none _ _ G x Hx).
  - intros k row Hk. unfold Table.all, Table.insert.
    rewrite nth_error_app1; [exact Hk |]. apply nth_error_Some. congruence.
  - apply TableFacts.insert_length.
Qed.

Lemma insert_keeps_rows_witness :
  let tb := [(3, "c"); (1, "a")] in
  Table.get (Table.insert tb "d") 1 = Some (1, "a")
  /\ Table.get (Table.insert tb "d") 4 = Some (4, "d").
Proof.
  intros tb. destruct (insert_keeps_rows string tb "d") as (_ & H & _).
  split; [| reflexivity]. rewrite (H 1); [reflexivity | discriminate].
Defined.

(** ** Keys *)

Lemma fold_max_in (l : list Z) (i : Z) : In (fold_right Z.max i l) (i :: l).
Proof.
  induction l as [|y l IH]; [now left |]. cbn [fold_right].
  destruct (Z.max_spec y (fold_right Z.max i l)) as [[_ ->] | [_ ->]].
  - destruct IH as [E | H]; [now left | right; now right].
  - right. now left.
Qed.

Lemma ids_length {A} (tb : Table.t A) :
  List.length (Table.ids tb) = List.length tb.
Proof. apply length_map. Qed.

Lemma in_dense (n : nat) (x : Z) :
  In x (map Z.of_nat (seq 1 n)) <-> 1 <= x <= Z.of_nat n.
Proof.
  rewrite in_map_iff. split.
  - intros (k & <- & Hk). apply in_seq in Hk. lia.
  - intros H. exists (Z.to_nat x). split; [lia |]. apply in_seq. lia.
Qed.

Lemma next_id_dense {A} (tb : Table.t A) :
  dense_ids tb -> Table.next_id tb = Z.of_nat (S (List.length tb)).
Proof.
  unfold dense_ids, Table.next_id. intros D.
  destruct (Table.ids tb) as [|i l] eqn:E.
  - rewrite <- ids_length, E. reflexivity.
  - pose proof (fold_max_in l i) as Hin.
    assert (Htop : In (Z.of_nat (List.length tb)) (i :: l)).
    { rewrite D. apply in_dense. rewrite <- ids_length, E. simpl. lia. }
    apply TableFacts.le_fold_max in Htop.
    rewrite D in Hin. apply in_dense in Hin. lia.
Qed.

Lemma insert_dense {A} (tb : Table.t A) (a : A) :
  dense_ids tb -> dense_ids (Table.insert tb a).
Proof.
  intros D. unfold dense_ids. rewrite TableFacts.insert_length.
  rewrite seq_S, map_app. unfold Table.insert, Table.ids. rewrite map_app.
  fold (Table.ids tb). rewrite D. cbn [map fst]. now rewrite next_id_dense.
Qed.

Lemma update_ids {A} (tb : Table.t A) (i : Z) (f : A -> A) :
  Table.ids (Table.update tb i f) = Table.ids tb.
Proof.
  unfold Table.ids, Table.update. rewrite map_map. apply map_ext.
  intros r. now destruct (fst r =? i).
Qed.

Lemma update_dense {A} (tb : Table.t A) (i : Z) (f : A -> A) :
  dense_ids tb -> dense_ids (Table.update tb i f).
Proof.
  unfold dense_ids. rewrite update_ids. unfold Table.update.
  now rewrite length_map.
Qed.

Lemma dense_NoDup {A} (tb : Table.t A) : dense_ids tb -> NoDup (Table.ids tb).
Proof.
  intros ->. apply Finite.Injective_map_NoDup; [| apply seq_NoDup].
  intros x y. apply Nat2Z.inj.
Qed.

(** ** Invariants of the sampling loop and of monitoring *)

Lemma loop_invariant (P : Store -> Prop) (Q : Tick -> Prop) (i : Z)
    (start : datetime) :
  (forall t st, Q t -> P st -> P (sleep t i st)) ->
  (forall st e, machine_id e = i -> P st -> P (add_production st e)) ->
  forall ticks, Forall Q ticks ->
  forall st q, P st -> P (loop_store (sampling_loop ticks st i start q)).
Proof.
  intros Hsleep Hadd. induction 1 as [|t ticks Ht _ IH]; intros st q H; simpl;
    destruct (status_is_running st i); try exact H.
  apply IH, Hadd; [reflexivity |]. now apply Hsleep.
Qed.

Lemma monitor_invariant (P : Store -> Prop) (Q : Tick -> Prop) (id : Z)
    (start stop : bool) (now : datetime) (ticks : list Tick) (w : World) :
  (forall t st, Q t -> P st -> P (sleep t id st)) ->
  (forall st e, machine_id e = id -> P st -> P (add_production st e)) ->
  (P (db w) -> P (set_machine_status (db w) id "Idle")) ->
  Forall Q ticks -> P (db w) ->
  P (db (outcome_world (monitor_machine id start stop now ticks w))).
Proof.
  intros Hsleep Hadd Hstop Hticks H.
  destruct (monitor_machine_store id start stop now ticks w)
    as [-> | [(machine & G & ->) | (machine & G & ->)]];
    try rewrite (TableFacts.get_fst _ _ _ G).
  - exact H.
  - now apply (loop_invariant P Q).
  - now apply Hstop.
Qed.

Lemma ticks_any (ticks : list Tick) : Forall (fun _ => True) ticks.
Proof. induction ticks; constructor; auto. Qed.

Lemma run_actions_invariant (P : Store -> Prop) (Q : action -> Prop)
    (strftime : datetime -> string) :
  (forall a w, Q a -> P (db w) ->
     P (db (outcome_world (run_action strftime a w)))) ->
  forall acts, Forall Q acts ->
  forall w, P (db w) -> P (db (run_actions strftime acts w)).
Proof.
  intros Hstep. unfold run_actions.
  induction 1 as [|a acts Ha _ IH]; intros w H; [exact H |].
  cbn [fold_left]. apply IH. now apply Hstep.
Qed.

Lemma actions_any (acts : list action) : Forall (fun _ => True) acts.
Proof. induction acts; constructor; auto. Qed.

Lemma run_action_dense (strftime : datetime -> string) (a : action) (w : World) :
  store_dense (db w) ->
  store_dense (db (outcome_world (run_action strftime a w))).
Proof.
  intros H. destruct a; cbn [run_action page outcome_world].
  - exact H.
  - unfold add_machine_page. destruct submitted; [| exact H].
    destruct (strip name =? "")%string; [exact H |].
    destruct H as (Hp & Hm & Hr). repeat split; try assumption.
    now apply insert_dense.
  - unfold add_product_page. destruct submitted; [| exact H].
    destruct (strip name =? "")%string; [exact H |].
    destruct (quantity <=? 0); [exact H |].
    destruct H as (Hp & Hm & Hr). repeat split; try assumption.
    now apply insert_dense.
  - now rewrite production_data_page_world.
  - now rewrite daily_report_page_world.
  - apply (monitor_invariant store_dense (fun _ => True));
      [ | | | apply ticks_any | exact H].
    + intros t st _ (Hp & Hm & Hr). unfold sleep.
      destruct (tick_ext t); repeat split; try assumption.
      now apply update_dense.
    + intros st e _ (Hp & Hm & Hr). repeat split; try assumption.
      now apply insert_dense.
    + intros (Hp & Hm & Hr). repeat split; try assumption.
      now apply update_dense.
Qed.

(** X4. In every world the operations reach from the empty store, the
    keys of each table are 1, 2, ..., n in row order, whatever other runs
    write to machine rows: primary keys are never reused or repeated, and
    the order in which [all()] lists the rows is the order of their keys. *)
Theorem reachable_keys_dense (strftime : datetime -> string)
    (acts : list action) :
  let st := db (run_actions strftime acts initial_world) in
  (Table.ids (products st) = map Z.of_nat (seq 1 (List.length (products st)))
   /\ NoDup (Table.ids (products st)))
  /\ (Table.ids (machines st) = map Z.of_nat (seq 1 (List.length (machines st)))
      /\ NoDup (Table.ids (machines st)))
  /\ (Table.ids (productions st) =
        map Z.of_nat (seq 1 (List.length (productions st)))
      /\ NoDup (Table.ids (productions st))).
Proof.
  intros st.
  assert (H : store_dense st).
  { apply (run_actions_invariant store_dense (fun _ => True)).
    - intros a w _. apply run_action_dense.
    - apply actions_any.
    - repeat split. }
  destruct H as (Hp & Hm & Hr).
  repeat split; try assumption; now apply dense_NoDup.
Qed.

(** ** The navigation bar *)

Lemma add_machine_page_frame (name : string) (choice : status_choice)
    (submitted : bool) (now : datetime) (w : World) :
  let w' := fst (add_machine_page name choice submitted now w) in
  productions (db w') = productions (db w)
  /\ running_machine w' = running_machine w
  /\ products (db w') = products (db w)
  /\ exists new, machines (db w') = machines (db w) ++ new
                 /\ (List.length new <= 1)%nat.
Proof.
  unfold add_machine_page. destruct submitted;
    [destruct (strip name =? "")%string |]; cbn [fst db add_machine machines];
    repeat split; try (exists []; rewrite app_nil_r; split; [reflexivity | simpl; lia]).
  eexists. split; [reflexivity | simpl; lia].
Qed.

Lemma add_product_page_frame (name : string) (quantity : Z) (submitted : bool)
    (w : World) :
  let w' := fst (add_product_page name quantity submitted w) in
  productions (db w') = productions (db w)
  /\ running_machine w' = running_machine w
  /\ machines (db w') = machines (db w)
  /\ exists new, products (db w') = products (db w) ++ new
                 /\ (List.length new <= 1)%nat.
Proof.
  unfold add_product_page. destruct submitted;
    [destruct (strip name =? "")%string; [| destruct (quantity <=? 0)] |];
    cbn [fst db add_product products];
    repeat split; try (exists []; rewrite app_nil_r; split; [reflexivity | simpl; lia]).
  eexists. split; [reflexivity | simpl; lia].
Qed.

Lemma main_frame (strftime : datetime -> string) (selected : string)
    (inp : Widgets) (w : World) :
  let w' := fst (main strftime selected inp w) in
  productions (db w') = productions (db w)
  /\ running_machine w' = running_machine w
  /\ (exists new, machines (db w') = machines (db w) ++ new
                  /\ (List.length new <= 1)%nat)
  /\ (exists new, products (db w') = products (db w) ++ new
                  /\ (List.length new <= 1)%nat).
Proof.
  assert (Same : forall w', w' = w ->
    productions (db w') = productions (db w)
    /\ running_machine w' = running_machine w
    /\ (exists new, machines (db w') = machines (db w) ++ new
                    /\ (List.length new <= 1)%nat)
    /\ (exists new, products (db w') = products (db w) ++ new
                    /\ (List.length new <= 1)%nat)).
  { intros w' ->. repeat split; exists []; rewrite app_nil_r; simpl; split;
      (reflexivity || lia). }
  unfold main.
  destruct (selected =? "Home")%string; [now apply Same |].
  destruct (selected =? "Add Machine")%string.
  { destruct (add_machine_page_frame (inp_machine_name inp)
                (inp_machine_status inp) (inp_machine_submitted inp)
                (inp_clock inp) w) as (A & B & C & D).
    repeat split; try assumption. exists []. rewrite app_nil_r.
    split; [exact C | simpl; lia]. }
  destruct (selected =? "Add Product")%string.
  { destruct (add_product_page_frame (inp_product_name inp) (inp_quantity inp)
                (inp_product_submitted inp) w) as (A & B & C & D).
    repeat split; try assumption. exists []. rewrite app_nil_r.
    split; [exact C | simpl; lia]. }
  destruct (selected =? "Production Data")%string;
    [apply Same, production_data_page_world |].
  destruct (selected =? "Daily Report")%string;
    [apply Same, daily_report_page_world |].
  now apply Same.
Qed.

(** X5. The navigation bar never reaches machine monitoring.  Whatever is
    selected and entered, over any number of runs of [main]: the
    productions table and the session state stay as they were, and every
    machine and product row that was there stays in place with all its
    columns, status included; rows are only appended.  A selection outside
    the menu shows nothing at all. *)
Theorem main_never_monitors (strftime : datetime -> string)
    (runs : list (string * Widgets)) (w : World) :
  let w' := run_main strftime runs w in
  productions (db w') = productions (db w)
  /\ running_machine w' = running_machine w
  /\ (exists new, machines (db w') = machines (db w) ++ new
                  /\ (List.length new <= List.length runs)%nat)
  /\ (exists new, products (db w') = products (db w) ++ new
                  /\ (List.length new <= List.length runs)%nat)
  /\ (forall selected inp,
        ~ In selected menu_options ->
        main strftime selected inp w = (w, [])).
Proof.
  intros w'. subst w'. unfold run_main. split; [| split; [| split; [| split]]].
  5: { intros selected inp Hn. unfold main.
       repeat match goal with
       | |- context [(selected =? ?s)%string] =>
           destruct (String.eqb_spec selected s) as [E | _];
           [exfalso; apply Hn; rewrite E; simpl; tauto |]
       end. reflexivity. }
  all: revert w; induction runs as [|[sel inp] runs IH]; intros w;
    cbn [fold_left fst snd List.length];
    try reflexivity;
    try (exists []; rewrite app_nil_r; split; [reflexivity | simpl; lia]);
    destruct (main_frame strftime sel inp w) as (A & B & (nm & C & Lm) & (np & D & Lp)).
  - now rewrite IH.
  - now rewrite IH.
  - destruct (IH (fst (main strftime sel inp w))) as (new & E & L).
    exists (nm ++ new). rewrite E, C, <- app_assoc, length_app.
    split; [reflexivity | lia].
  - destruct (IH (fst (main strftime sel inp w))) as (new & E & L).
    exists (np ++ new). rewrite E, D, <- app_assoc, length_app.
    split; [reflexivity | lia].
Qed.

Lemma report_row_no_rows (st : Store) (machine : Z * Machine) :
  Table.filter (fun r => machine_id (snd r) =? fst machine) (productions st) = [] ->
  report_row st machine =
    {| rep_machine_name := m_name (snd machine); rep_total_run_time := 0;
       rep_total_production_quantity := 0 |}.
Proof. unfold report_row. now intros ->. Qed.

(** X6. Started on an empty database and used through the navigation bar
    alone, the application never has a production row: the production-data
    page always shows its notice, and the daily report lists every machine
    that was added, in order, with run time 0 and quantity 0. *)
Theorem main_alone_reports_zero (strftime : datetime -> string)
    (runs : list (string * Widgets)) :
  let w := run_main strftime runs initial_world in
  productions (db w) = []
  /\ production_data_page strftime w =
       (w, [st_title "Production Data";
            st_write "No production data available."])
  /\ build_report (db w) =
       map (fun machine =>
              {| rep_machine_name := m_name (snd machine);
                 rep_total_run_time := 0;
                 rep_total_production_quantity := 0 |})
         (machines (db w)).
Proof.
  intros w.
  assert (E : productions (db w) = []).
  { subst w. unfold run_main. generalize (eq_refl (productions (db initial_world))).
    generalize initial_world at 1 3.
    induction runs as [|[sel inp] runs IH]; intros w0 H0; cbn [fold_left fst snd].
    - now rewrite H0.
    - apply IH. destruct (main_frame strftime sel inp w0) as (A & _).
      now rewrite A. }
  split; [exact E |]. split.
  - unfold production_data_page, Table.all. now rewrite E.
  - rewrite build_report_map. apply map_ext. intros machine.
    apply report_row_no_rows. now rewrite E.
Qed.

Lemma main_never_monitors_witness :
  let inp := {| inp_machine_name := "press"; inp_machine_status := Running;
                inp_machine_submitted := true; inp_clock := 5;
                inp_product_name := "bolt"; inp_quantity := 2;
                inp_product_submitted := true |} in
  let runs := [("Add Machine", inp); ("Add Product", inp);
               ("Production Data", inp)] in
  productions (db (run_main (fun _ => "") runs initial_world)) = []
  /\ main (fun _ => "") "Monitor" inp initial_world = (initial_world, []).
Proof.
  intros inp runs.
  destruct (main_never_monitors (fun _ => "") runs initial_world)
    as (A & _ & _ & _ & B).
  split; [exact A |]. apply B. simpl. intuition discriminate.
Defined.

(** ** Starting and stopping *)

Lemma monitor_start_not_running (id : Z) (m : Machine) (w : World)
    (stop : bool) (now : datetime) (ticks : list Tick) :
  Table.get (machines (db w)) id = Some (id, m) ->
  m_status m <> "Running" ->
  monitor_machine id true stop now ticks w =
    Returned {| db := db w; running_machine := Some (Some id) |}
      [st_success (MonitoringStopped (m_name m) 0)].
Proof.
  intros G Hs. unfold monitor_machine. rewrite G. cbn [fst snd].
  rewrite loop_not_running; [reflexivity |].
  rewrite (status_of_get _ _ _ G). now apply String.eqb_neq.
Qed.

Lemma monitor_start_session (id : Z) (machine : Z * Machine) (w : World)
    (stop : bool) (now : datetime) (ticks : list Tick) :
  Table.get (machines (db w)) id = Some machine ->
  running_machine
    (outcome_world (monitor_machine id true stop now ticks w)) =
  Some (Some id).
Proof.
  intros G. unfold monitor_machine. rewrite G.
  now destruct (sampling_loop ticks (db w) (fst machine) now 0).
Qed.

Lemma sleep_get_other (t : Tick) (i j : Z) (st : Store) :
  j <> i -> Table.get (machines (sleep t i st)) j = Table.get (machines st) j.
Proof.
  intros H. unfold sleep. destruct (tick_ext t); [| reflexivity].
  now apply get_update_other.
Qed.






(** X9. Stop is accepted once.  After an accepted Stop the session state
    is cleared, so a second Stop on the same machine changes nothing and
    shows the warning. *)
Theorem stop_twice (id : Z) (m : Machine) (w : World)
    (now now' : datetime) (ticks ticks' : list Tick) :
  Table.get (machines (db w)) id = Some (id, m) ->
  running_machine w = Some (Some id) ->
  let w1 := {| db := set_machine_status (db w) id "Idle";
               running_machine := Some None |} in
  monitor_machine id false true now ticks w = Returned w1 []
  /\ monitor_machine id false true now' ticks' w1 =
       Returned w1 [st_warning "This machine is not currently being monitored."].
Proof.
  intros G R w1. unfold monitor_machine, is_running_machine. split.
  - rewrite G, R, Z.eqb_refl. reflexivity.
  - subst w1. cbn [db running_machine set_machine_status machines].
    rewrite TableFacts.get_update_same, G. reflexivity.
Qed.

Lemma stop_twice_witness :
  let press := {| m_name := "press"; m_status := "Running";
                  m_last_maintenance := Some 0 |} in
  let w := {| db := add_machine empty_store press;
              running_machine := Some (Some 1) |} in
  let w1 := {| db := set_machine_status (db w) 1 "Idle";
               running_machine := Some None |} in
  monitor_machine 1 false true 0 [] w = Returned w1 []
  /\ monitor_machine 1 false true 1 [] w1 =
       Returned w1 [st_warning "This machine is not currently being monitored."].
Proof.
  intros press w w1.
  apply (stop_twice 1 press w 0 1 [] [] eq_refl eq_refl).
Defined.

(** X10. The session state holds one machine only.  Start on machine b
    overwrites it, so Stop on another machine a afterwards is refused with
    the warning and changes nothing, even if a was the machine recorded
    before; a's row is as it was before the session on b. *)
Theorem start_overwrites_session (a b : Z) (ma mb : Machine) (w : World)
    (stop : bool) (now now' : datetime) (ticks ticks' : list Tick) :
  a <> b ->
  Table.get (machines (db w)) a = Some (a, ma) ->
  Table.get (machines (db w)) b = Some (b, mb) ->
  let w' := outcome_world (monitor_machine b true stop now ticks w) in
  Table.get (machines (db w')) a = Some (a, ma)
  /\ monitor_machine a false true now' ticks' w' =
       Returned w' [st_warning "This machine is not currently being monitored."].
Proof.
  intros Hab Ga Gb w'.
  assert (R : running_machine w' = Some (Some b))
    by (subst w'; now apply monitor_start_session with (machine := (b, mb))).
  assert (G : Table.get (machines (db w')) a = Some (a, ma)).
  { subst w'.
    apply (monitor_invariant
             (fun st => Table.get (machines st) a = Some (a, ma))
             (fun _ => True)); [| | | apply ticks_any | exact Ga].
    - intros t st _ H. now rewrite sleep_get_other.
    - intros st e _ H. exact H.
    - intros H. cbn [set_machine_status machines].
      now rewrite get_update_other. }
  split; [exact G |].
  unfold monitor_machine, is_running_machine. rewrite G, R.
  destruct (Z.eqb_spec b a) as [E | _]; [congruence | reflexivity].
Qed.

Lemma start_overwrites_session_witness :
  let press := {| m_name := "press"; m_status := "Running";
                  m_last_maintenance := Some 0 |} in
  let lathe := {| m_name := "lathe"; m_status := "Running";
                  m_last_maintenance := Some 0 |} in
  let w := {| db := add_machine (add_machine empty_store press) lathe;
              running_machine := Some (Some 1) |} in
  let w' := outcome_world
              (monitor_machine 2 true false 0
                 [{| tick_ext := Some "Idle"; tick_now := 1000000 |}] w) in
  monitor_machine 1 false true 5 [] w' =
    Returned w' [st_warning "This machine is not currently being monitored."].
Proof.
  intros press lathe w w'.
  apply (start_overwrites_session 1 2 press lathe w false 0 5
           [{| tick_ext := Some "Idle"; tick_now := 1000000 |}] []);
    [discriminate | reflexivity | reflexivity].
Defined.

(** ** What monitoring leaves alone *)

Lemma update_identity (tb : Table.t Machine) (i : Z) (s : string) :
  map machine_identity (Table.update tb i (with_status s)) =
  map machine_identity tb.
Proof.
  unfold Table.update. rewrite map_map. apply map_ext.
  intros r. now destruct (fst r =? i).
Qed.

(** X11. Monitoring a machine, started or stopped, with any buttons and
    whatever other runs write to that machine's row, never touches the
    products, never adds, removes or reorders machines, never changes a
    machine's id, name or maintenance date, and leaves every other
    machine's row exactly as it was. *)
Theorem monitor_machine_frame (id : Z) (start stop : bool) (now : datetime)
    (ticks : list Tick) (w : World) :
  let w' := outcome_world (monitor_machine id start stop now ticks w) in
  products (db w') = products (db w)
  /\ map machine_identity (machines (db w')) =
       map machine_identity (machines (db w))
  /\ forall j, j <> id ->
       Table.get (machines (db w')) j = Table.get (machines (db w)) j.
Proof.
  intros w'. subst w'.
  apply (monitor_invariant
           (fun st =>
              products st = products (db w)
              /\ map machine_identity (machines st) =
                   map machine_identity (machines (db w))
              /\ forall j, j <> id ->
                   Table.get (machines st) j = Table.get (machines (db w)) j)
           (fun _ => True)); [| | | apply ticks_any | now repeat split].
  - intros t st _ (A & B & C). unfold sleep.
    destruct (tick_ext t) as [s|]; [| now repeat split].
    cbn [set_machine_status products machines]. rewrite update_identity.
    repeat split; try assumption.
    intros j Hj. rewrite get_update_other by exact Hj. now apply C.
  - intros st e _ H. exact H.
  - intros _. cbn [set_machine_status products machines].
    rewrite update_identity. repeat split.
    intros j Hj. now apply get_update_other.
Qed.

Lemma monitor_machine_frame_witness :
  let press := {| m_name := "press"; m_status := "Running";
                  m_last_maintenance := Some 0 |} in
  let lathe := {| m_name := "lathe"; m_status := "Running";
                  m_last_maintenance := Some 3 |} in
  let w := {| db := add_machine (add_machine empty_store press) lathe;
              running_machine := None |} in
  Table.get
    (machines
       (db (outcome_world
              (monitor_machine 1 true false 0
                 [{| tick_ext := Some "Idle"; tick_now := 1000000 |}] w)))) 2 =
  Some (2, lathe).
Proof.
  intros press lathe w.
  destruct (monitor_machine_frame 1 true false 0
              [{| tick_ext := Some "Idle"; tick_now := 1000000 |}] w)
    as (_ & _ & H).
  rewrite (H 2); [reflexivity | discriminate].
Defined.

(** ** A machine that has stopped *)

Lemma not_running_step (strftime : datetime -> string) (j : Z) (a : action)
    (w : World) :
  action_in_program a ->
  (exists m, Table.get (machines (db w)) j = Some (j, m)
             /\ m_status m <> "Running") ->
  exists m, Table.get
              (machines (db (outcome_world (run_action strftime a w)))) j =
              Some (j, m)
            /\ m_status m <> "Running".
Proof.
  intros Ha H. destruct a; cbn [run_action page outcome_world].
  - exact H.
  - unfold add_machine_page. destruct submitted; [| exact H].
    destruct (strip name =? "")%string; [exact H |].
    destruct H as (m & G & Hs). exists m. split; [| exact Hs].
    cbn [fst db add_machine machines]. now apply TableFacts.get_insert_old.
  - unfold add_product_page. destruct submitted; [| exact H].
    destruct (strip name =? "")%string; [exact H |].
    destruct (quantity <=? 0); exact H.
  - now rewrite production_data_page_world.
  - now rewrite daily_report_page_world.
  - assert (Idle_ok : forall st,
              (exists m, Table.get (machines st) j = Some (j, m)
                         /\ m_status m <> "Running") ->
              exists m, Table.get (machines (set_machine_status st id "Idle")) j
                          = Some (j, m)
                        /\ m_status m <> "Running").
    { intros st (m & G & Hs). cbn [set_machine_status machines].
      destruct (Z.eq_dec j id) as [-> | Hj].
      - exists (with_status "Idle" m).
        rewrite TableFacts.get_update_same, G. split; [reflexivity | discriminate].
      - exists m. rewrite get_update_other by exact Hj. now split. }
    apply (monitor_invariant
             (fun st => exists m, Table.get (machines st) j = Some (j, m)
                                  /\ m_status m <> "Running")
             stop_only); [| | apply Idle_ok | exact Ha | exact H].
    + intros t st [E | E] Hst; unfold sleep; rewrite E;
        [exact Hst | now apply Idle_ok].
    + intros st e _ Hst. exact Hst.
Qed.

(** X12. Nothing in the program sets a status to "Running".  Once a stored
    machine is not "Running" it stays so through every sequence of
    operations, the only concurrent writers being other runs' Stop; and
    Start on it, then or later, samples nothing: it returns with total 0
    and adds no production row. *)
Theorem stopped_machine_never_runs (strftime : datetime -> string) (j : Z)
    (m : Machine) (acts : list action) (w : World) :
  Forall action_in_program acts ->
  Table.get (machines (db w)) j = Some (j, m) ->
  m_status m <> "Running" ->
  let w' := run_actions strftime acts w in
  exists m',
    Table.get (machines (db w')) j = Some (j, m')
    /\ m_status m' <> "Running"
    /\ forall stop now ticks,
         monitor_machine j true stop now ticks w' =
           Returned {| db := db w'; running_machine := Some (Some j) |}
             [st_success (MonitoringStopped (m_name m') 0)].
Proof.
  intros Hacts G Hs w'.
  assert (H : exists m', Table.get (machines (db w')) j = Some (j, m')
                         /\ m_status m' <> "Running").
  { subst w'.
    apply (run_actions_invariant
             (fun st => exists m', Table.get (machines st) j = Some (j, m')
                                   /\ m_status m' <> "Running")
             action_in_program strftime).
    - intros a w0. apply not_running_step.
    - exact Hacts.
    - now exists m. }
  destruct H as (m' & G' & Hs'). exists m'. repeat split; try assumption.
  intros stop now ticks. now apply monitor_start_not_running.
Qed.

Lemma stopped_machine_never_runs_witness :
  let press := {| m_name := "press"; m_status := "Running";
                  m_last_maintenance := Some 0 |} in
  let w := {| db := set_machine_status (add_machine empty_store press) 1 "Idle";
              running_machine := Some None |} in
  let acts := [AddMachine "lathe" Running true 4;
               MonitorMachine 1 true false 5
                 [{| tick_ext := None; tick_now := 1000005 |}];
               MonitorMachine 1 false true 6 []] in
  exists m',
    Table.get (machines (db (run_actions (fun _ => "") acts w))) 1 = Some (1, m')
    /\ m_status m' <> "Running".
Proof.
  intros press w acts.
  destruct (stopped_machine_never_runs (fun _ => "") 1
              (with_status "Idle" press) acts w) as (m' & A & B & _).
  - constructor; [exact I |]. constructor; [| constructor; [| constructor]].
    + constructor; [now left | constructor].
    + constructor.
  - reflexivity.
  - discriminate.
  - now exists m'.
Defined.

(** ** A session in progress *)

(** X13. Rows are committed as the loop goes.  While a session on a
    running machine is still sampling after n ticks, its n rows are already
    in the productions table, after the rows that were there, with
    quantities 1, ..., n, the machine's id, the session's start time and no
    end time. *)
Theorem sampling_rows_committed (id : Z) (m : Machine) (w : World)
    (stop : bool) (now : datetime) (ticks : list Tick) :
  Table.get (machines (db w)) id = Some (id, m) ->
  m_status m = "Running" ->
  Forall keeps_running ticks ->
  let n := List.length ticks in
  exists st rows,
    monitor_machine id true stop now ticks w =
      Sampling {| db := st; running_machine := Some (Some id) |} (Z.of_nat n)
    /\ productions st = productions (db w) ++ rows
    /\ List.length rows = n
    /\ map (fun r => production_quantity (snd r)) rows = map Z.of_nat (seq 1 n)
    /\ Forall (fun r => machine_id (snd r) = id /\ start_time (snd r) = now
                        /\ end_time (snd r) = None) rows.
Proof.
  intros G Hst Hk n.
  assert (Hrun : status_is_running (db w) id = true).
  { rewrite (status_of_get _ _ _ G), Hst. reflexivity. }
  destruct (loop_prefix id now ticks [] Hk (db w) 0 Hrun) as (st & E & R & P).
  destruct (insert_all (session_entries id now 0 ticks) (productions (db w)))
    as (rows & Er & M).
  exists st, rows. unfold monitor_machine. rewrite G. cbn [fst snd].
  rewrite app_nil_r in E. rewrite E. cbn [sampling_loop]. rewrite R.
  fold n. cbn [Z.add]. repeat split.
  - now rewrite P, <- Er.
  - rewrite <- (length_map snd), M. apply session_entries_length.
  - rewrite <- (map_map snd production_quantity), M.
    rewrite session_entries_quantity. fold n. apply map_ext. intros k. lia.
  - rewrite <- (Forall_map snd
      (fun e => machine_id e = id /\ start_time e = now /\ end_time e = None)).
    rewrite M. apply session_entries_fields.
Qed.

Lemma sampling_rows_committed_witness :
  let press := {| m_name := "press"; m_status := "Running";
                  m_last_maintenance := Some 0 |} in
  let w := {| db := add_machine empty_store press; running_machine := None |} in
  exists st rows,
    monitor_machine 1 true false 0
      [{| tick_ext := None; tick_now := 1000000 |};
       {| tick_ext := Some "Running"; tick_now := 2000000 |}] w =
      Sampling {| db := st; running_machine := Some (Some 1) |} 2
    /\ productions st = productions (db w) ++ rows
    /\ map (fun r => production_quantity (snd r)) rows = [1; 2].
Proof.
  intros press w.
  destruct (sampling_rows_committed 1 press w false 0
              [{| tick_ext := None; tick_now := 1000000 |};
               {| tick_ext := Some "Running"; tick_now := 2000000 |}]
              eq_refl eq_refl) as (st & rows & A & B & _ & C & _).
  - constructor; [now left |]. constructor; [now right | constructor].
  - now exists st, rows.
Defined.

(** ** Sessions in the daily report *)







(** ** Every row counted once *)

Lemma report_quantity_filter (st : Store) :
  report_quantity (build_report st) =
  fold_right Z.add 0
    (map (fun machine =>
            table_quantity
              (List.filter (fun r => machine_id (snd r) =? fst machine)
                 (productions st)))
       (machines st)).
Proof.
  unfold report_quantity. rewrite build_report_map, map_map. f_equal.
  apply map_ext. intros machine. unfold report_row, table_quantity.
  cbn [rep_total_production_quantity]. unfold sum_production_quantity.
  now rewrite (sumZ_shift (fun r => production_quantity (snd r))).
Qed.

Lemma per_machine_cons (ms : list (Z * Machine)) (p : Z * Production)
    (ps : list (Z * Production)) :
  fold_right Z.add 0
    (map (fun machine =>
            table_quantity
              (List.filter (fun r => machine_id (snd r) =? fst machine)
                 (p :: ps))) ms) =
  production_quantity (snd p)
    * Z.of_nat (count_occ Z.eq_dec (map fst ms) (machine_id (snd p)))
  + fold_right Z.add 0
      (map (fun machine =>
              table_quantity
                (List.filter (fun r => machine_id (snd r) =? fst machine) ps))
         ms).
Proof.
  induction ms as [|machine ms IH]; [simpl; lia |].
  cbn [map fold_right]. rewrite IH. cbn [List.filter count_occ].
  destruct (Z.eq_dec (fst machine) (machine_id (snd p))) as [E | NE].
  - rewrite E, Z.eqb_refl. unfold table_quantity. cbn [map fold_right]. lia.
  - destruct (Z.eqb_spec (machine_id (snd p)) (fst machine)); [congruence |].
    lia.
Qed.

Lemma per_machine_total (ms : list (Z * Machine)) (ps : list (Z * Production)) :
  NoDup (map fst ms) ->
  Forall (fun r => In (machine_id (snd r)) (map fst ms)) ps ->
  fold_right Z.add 0
    (map (fun machine =>
            table_quantity
              (List.filter (fun r => machine_id (snd r) =? fst machine) ps))
       ms) =
  table_quantity ps.
Proof.
  intros Hnd. induction 1 as [|p ps Hp _ IH].
  - clear Hnd. induction ms as [|machine ms IHms]; [reflexivity |].
    cbn [map fold_right]. rewrite IHms. reflexivity.
  - rewrite per_machine_cons, IH.
    rewrite (proj1 (NoDup_count_occ' Z.eq_dec (map fst ms)) Hnd _ Hp).
    unfold table_quantity. cbn [map fold_right]. lia.
Qed.

(** X15. When machine ids are distinct and every production row carries
    the id of a stored machine, the daily report counts every production
    row exactly once: the quantities of its lines add up to the sum of the
    quantities of all production rows. *)
Theorem report_counts_each_row_once (st : Store) :
  NoDup (Table.ids (machines st)) ->
  Forall (fun r => In (machine_id (snd r)) (Table.ids (machines st)))
    (productions st) ->
  report_quantity (build_report st) = table_quantity (productions st).
Proof.
  intros Hnd Href. rewrite report_quantity_filter.
  now apply per_machine_total.
Qed.

Lemma report_counts_each_row_once_witness :
  let sample := fun i q =>
    {| machine_id := i; start_time := 0; end_time := None;
       run_time := 0; production_quantity := q |} in
  let machine := fun n =>
    {| m_name := n; m_status := "Idle"; m_last_maintenance := None |} in
  let st :=
    add_production
      (add_production
         (add_production
            (add_machine (add_machine empty_store (machine "a")) (machine "b"))
            (sample 2 5))
         (sample 1 7))
      (sample 2 11) in
  report_quantity (build_report st) = 23.
Proof.
  intros sample machine st.
  rewrite (report_counts_each_row_once st); [reflexivity | |].
  - repeat constructor; simpl; intuition discriminate.
  - repeat constructor; simpl; tauto.
Defined.

(** ** Rows of reachable worlds *)

(** Every production row names a stored machine and counts at least one
    unit. *)
Lemma references_step (strftime : datetime -> string) (a : action) (w : World) :
  Forall (fun r => In (machine_id (snd r)) (Table.ids (machines (db w)))
                   /\ 1 <= production_quantity (snd r))
    (productions (db w)) ->
  let st := db (outcome_world (run_action strftime a w)) in
  Forall (fun r => In (machine_id (snd r)) (Table.ids (machines st))
                   /\ 1 <= production_quantity (snd r))
    (productions st).
Proof.
  intros H st. subst st. destruct a; cbn [run_action page outcome_world].
  - exact H.
  - unfold add_machine_page. destruct submitted; [| exact H].
    destruct (strip name =? "")%string; [exact H |].
    cbn [fst db add_machine machines productions].
    eapply Forall_impl; [| exact H]. intros r [Hr Hq]. split; [| exact Hq].
    unfold Table.insert, Table.ids. rewrite map_app. apply in_or_app. now left.
  - unfold add_product_page. destruct submitted; [| exact H].
    destruct (strip name =? "")%string; [exact H |].
    destruct (quantity <=? 0); exact H.
  - now rewrite production_data_page_world.
  - now rewrite daily_report_page_world.
  - destruct (monitor_machine_store id start stop now ticks w)
      as [-> | [(machine & G & ->) | (machine & G & ->)]];
      try rewrite (TableFacts.get_fst _ _ _ G).
    + exact H.
    + pose proof (get_in_ids _ _ _ G) as Hin.
      assert (Gen : forall ticks st q,
        0 <= q -> In id (Table.ids (machines st)) ->
        Forall (fun r => In (machine_id (snd r)) (Table.ids (machines st))
                         /\ 1 <= production_quantity (snd r))
          (productions st) ->
        let st' := loop_store (sampling_loop ticks st id now q) in
        Forall (fun r => In (machine_id (snd r)) (Table.ids (machines st'))
                         /\ 1 <= production_quantity (snd r))
          (productions st')).
      { clear. induction ticks as [|t ticks IH]; intros st q Hq Hin H; simpl;
          destruct (status_is_running st id); try exact H.
        assert (Hids : Table.ids (machines (sleep t id st)) =
                       Table.ids (machines st)).
        { unfold sleep. destruct (tick_ext t); [apply update_ids | reflexivity]. }
        apply IH; [lia | cbn [add_production machines]; now rewrite Hids |].
        cbn [add_production machines productions]. rewrite Hids.
        rewrite sleep_productions. unfold Table.insert. apply Forall_app.
        split; [exact H |]. constructor; [| constructor].
        cbn [snd machine_id production_quantity]. split; [exact Hin | lia]. }
      apply Gen; [lia | exact Hin | exact H].
    + cbn [set_machine_status machines productions]. now rewrite update_ids.
Qed.

(** X16. The schema enforces no foreign key, the program keeps one.  In
    every world the operations reach from the empty store, every production
    row carries the id of a stored machine and a quantity of at least 1,
    machine ids are distinct, and so the quantities in the daily report add
    up to the sum over all production rows. *)
Theorem reachable_productions_referenced (strftime : datetime -> string)
    (acts : list action) :
  let st := db (run_actions strftime acts initial_world) in
  Forall (fun r => In (machine_id (snd r)) (Table.ids (machines st))
                   /\ 1 <= production_quantity (snd r))
    (productions st)
  /\ report_quantity (build_report st) = table_quantity (productions st).
Proof.
  intros st.
  assert (Href : Forall
            (fun r => In (machine_id (snd r)) (Table.ids (machines st))
                      /\ 1 <= production_quantity (snd r))
            (productions st)).
  { subst st. unfold run_actions.
    assert (H0 : Forall
              (fun r => In (machine_id (snd r))
                          (Table.ids (machines (db initial_world)))
                        /\ 1 <= production_quantity (snd r))
              (productions (db initial_world))) by constructor.
    revert H0. generalize initial_world.
    induction acts as [|a acts IH]; intros w Hw; [exact Hw |].
    cbn [fold_left]. apply IH. now apply references_step. }
  split; [exact Href |].
  assert (Hd : store_dense st).
  { apply (run_actions_invariant store_dense (fun _ => True)).
    - intros a w _. apply run_action_dense.
    - apply actions_any.
    - repeat split. }
  rewrite report_quantity_filter. apply per_machine_total.
  - apply dense_NoDup, Hd.
  - eapply Forall_impl; [| exact Href]. now intros r [Hr _].
Qed.

(** X17. In every world the operations reach from the empty store, every
    stored product has price 0, a quantity above 0 and a name with a
    character other than white space, and every stored machine has such a
    name and a maintenance date. *)
Theorem reachable_rows_well_formed (strftime : datetime -> string)
    (acts : list action) :
  let st := db (run_actions strftime acts initial_world) in
  Forall (fun r => p_price (snd r) = 0%Q /\ 0 < p_quantity (snd r)
                   /\ all_space (p_name (snd r)) = false) (products st)
  /\ Forall (fun r => all_space (m_name (snd r)) = false
                      /\ m_last_maintenance (snd r) <> None) (machines st).
Proof.
  intros st. subst st.
  apply (run_actions_invariant
           (fun st =>
              Forall (fun r => p_price (snd r) = 0%Q /\ 0 < p_quantity (snd r)
                               /\ all_space (p_name (snd r)) = false)
                (products st)
              /\ Forall (fun r => all_space (m_name (snd r)) = false
                                  /\ m_last_maintenance (snd r) <> None)
                   (machines st))
           (fun _ => True) strftime); [| apply actions_any | split; constructor].
  intros a w _ [Hp Hm].
  assert (Hupd : forall i s,
            Forall (fun r => all_space (m_name (snd r)) = false
                             /\ m_last_maintenance (snd r) <> None)
              (Table.update (machines (db w)) i (with_status s))).
  { intros i s. unfold Table.update. apply Forall_map.
    eapply Forall_impl; [| exact Hm]. intros r Hr. now destruct (fst r =? i). }
  destruct a; cbn [run_action page outcome_world].
  - now split.
  - unfold add_machine_page. destruct submitted; [| now split].
    rewrite strip_eqb_blank. destruct (all_space name) eqn:E; [now split |].
    cbn [fst db add_machine products machines]. split; [exact Hp |].
    unfold Table.insert. apply Forall_app. split; [exact Hm |].
    constructor; [| constructor]. cbn [snd m_name m_last_maintenance].
    split; [exact E | discriminate].
  - unfold add_product_page. destruct submitted; [| now split].
    rewrite strip_eqb_blank. destruct (all_space name) eqn:E; [now split |].
    destruct (Z.leb_spec quantity 0); [now split |].
    cbn [fst db add_product products machines]. split; [| exact Hm].
    unfold Table.insert. apply Forall_app. split; [exact Hp |].
    constructor; [| constructor]. cbn [snd p_price p_quantity p_name].
    repeat split; [lia | exact E].
  - now rewrite production_data_page_world.
  - now rewrite daily_report_page_world.
  - apply (monitor_invariant
             (fun st =>
                Forall (fun r => p_price (snd r) = 0%Q /\ 0 < p_quantity (snd r)
                                 /\ all_space (p_name (snd r)) = false)
                  (products st)
                /\ Forall (fun r => all_space (m_name (snd r)) = false
                                    /\ m_last_maintenance (snd r) <> None)
                     (machines st))
             (fun _ => True)); [| | | apply ticks_any | now split].
    + intros t st _ [Hp' Hm']. unfold sleep.
      destruct (tick_ext t) as [s|]; [| now split].
      cbn [set_machine_status products machines]. split; [exact Hp' |].
      unfold Table.update. apply Forall_map.
      eapply Forall_impl; [| exact Hm']. intros r Hr.
      now destruct (fst r =? id).
    + intros st e _ H. exact H.
    + intros _. cbn [set_machine_status products machines]. now split.
Qed.

(** ** The viewing pages *)


